(** * image-processor/main.py: the interactive describe-an-image loop

    A shallow embedding of [src/image-processor/main.py] and the properties
    of its fetch / infer / write / clean-up cycle.

    Conventions of the embedding.
    - Python [str] values are [string]s (byte strings; the text is its
      UTF-8 encoding).  [str.strip] removes every white-space character of
      Python, of one, two or three bytes; [len] and slicing count
      characters, not bytes; [str.lower] changes the letters A to Z.
    - A path is the list of its components: [os.path.join d f] appends a
      component, [os.path.basename] takes the last one.  Every path of the
      program is built by [os.path.join] from a directory constant and a
      separator-free file name.
    - The outside world (standard input and output, the file system, the
      network requests made, the processes spawned, the clock) is an
      explicit [World] threaded through a state-and-exception monad.
    - Library calls whose result the program cannot know (HTTP, image
      decoding, the tokenizer and the model, faults of the local disk) are
      fields of an environment record [Env]; the theorems quantify over it.
      A call answers by its arguments; the clocks answer by the number of
      readings taken before.
    - A file is represented by what was written into it: an image file by
      the image saved, a text file by the characters passed to [f.write],
      which is also what reading it in text mode gives back.  The bytes a
      text file has on disk are [disk_text] of its text: text mode writes
      each line feed as [os.linesep].  Lines are the pieces between line
      feeds.
    - Python exceptions come in the two classes the handlers of [main]
      tell apart: [Exception] (with its message) and [KeyboardInterrupt]. *)

From Stdlib Require Import ZArith Ascii String List Lia.
From stdpp Require Import gmap strings list fin_maps.

Local Open Scope nat_scope.

(** ** Characters and strings *)

Definition LF : ascii := "010"%char.
Definition nl : string := String LF "".

(** [c.lower()] on one ASCII character. *)
Definition ascii_lower (c : ascii) : ascii :=
  let n := nat_of_ascii c in
  if (65 <=? n) && (n <=? 90) then ascii_of_nat (n + 32) else c.

(** [c.upper()] on one ASCII character. *)
Definition ascii_upper (c : ascii) : ascii :=
  let n := nat_of_ascii c in
  if (97 <=? n) && (n <=? 122) then ascii_of_nat (n - 32) else c.

(** [s.lower()], used for the comparison with the quit keywords.  Only
    the letters A to Z change.  No other character lowers to text that is
    all ASCII apart from the Kelvin sign, which gives k, a letter no keyword
    has: the comparison comes out as in Python. *)
Fixpoint lower (s : string) : string :=
  match s with
  | EmptyString => EmptyString
  | String c r => String (ascii_lower c) (lower r)
  end.

(** [c.isspace()] for a character of one byte: tab, LF, VT, FF, CR, the
    four separators FS GS RS US, and the space. *)
Definition is_space (c : ascii) : bool :=
  let n := nat_of_ascii c in
  ((9 <=? n) && (n <=? 13)) || ((28 <=? n) && (n <=? 31)) || (n =? 32).

(** The white-space characters of two bytes: U+0085 (C2 85) and U+00A0
    (C2 A0). *)
Definition space2 (a b : ascii) : bool :=
  (nat_of_ascii a =? 194) &&
  ((nat_of_ascii b =? 133) || (nat_of_ascii b =? 160)).

(** The white-space characters of three bytes: U+1680 (E1 9A 80),
    U+2000 to U+200A, U+2028, U+2029 and U+202F (E2 80 ..), U+205F
    (E2 81 9F) and U+3000 (E3 80 80). *)
Definition space3 (a b c : ascii) : bool :=
  let x := nat_of_ascii a in
  let y := nat_of_ascii b in
  let z := nat_of_ascii c in
  ((x =? 225) && (y =? 154) && (z =? 128)) ||
  ((x =? 226) && (y =? 128) &&
   (((128 <=? z) && (z <=? 138)) || (z =? 168) || (z =? 169) || (z =? 175))) ||
  ((x =? 226) && (y =? 129) && (z =? 159)) ||
  ((x =? 227) && (y =? 128) && (z =? 128)).

(** [s.lstrip()]: the white-space characters at the head are dropped,
    whatever their width. *)
Fixpoint lstrip (s : string) : string :=
  match s with
  | EmptyString => EmptyString
  | String a r =>
      if is_space a then lstrip r
      else
        match r with
        | EmptyString => s
        | String b r2 =>
            if space2 a b then lstrip r2
            else
              match r2 with
              | EmptyString => s
              | String c r3 => if space3 a b c then lstrip r3 else s
              end
        end
  end.

(** [s] consists of white-space characters only. *)
Fixpoint all_white (s : string) : bool :=
  match s with
  | EmptyString => true
  | String a r =>
      if is_space a then all_white r
      else
        match r with
        | EmptyString => false
        | String b r2 =>
            if space2 a b then all_white r2
            else
              match r2 with
              | EmptyString => false
              | String c r3 => space3 a b c && all_white r3
              end
        end
  end.

(** [s.rstrip()]: the text is cut where only white space follows. *)
Fixpoint rstrip (s : string) : string :=
  match s with
  | EmptyString => EmptyString
  | String c r => if all_white s then EmptyString else String c (rstrip r)
  end.

(** [s.strip()] *)
Definition strip (s : string) : string := rstrip (lstrip s).

Definition string_eqb (a b : string) : bool := bool_decide (a = b).

(** A byte that continues a character of several bytes (10xxxxxx). *)
Definition is_continuation (c : ascii) : bool :=
  let n := nat_of_ascii c in (128 <=? n) && (n <=? 191).

(** [len(s)]: the number of characters, that is of bytes that start one. *)
Fixpoint char_length (s : string) : nat :=
  match s with
  | EmptyString => 0
  | String c r => if is_continuation c then char_length r else S (char_length r)
  end.

(** [s[:n]]: the first [n] characters with all their bytes. *)
Fixpoint str_take (n : nat) (s : string) : string :=
  match s with
  | EmptyString => EmptyString
  | String c r =>
      if is_continuation c then String c (str_take n r)
      else
        match n with
        | O => EmptyString
        | S n' => String c (str_take n' r)
        end
  end.



Fixpoint has_LF (s : string) : bool :=
  match s with
  | EmptyString => false
  | String c r => Ascii.eqb c LF || has_LF r
  end.

(** ** Decimal formatting, as [strftime] and [isoformat] zero-pad it *)

Local Open Scope Z_scope.

Definition digit_char (d : Z) : ascii := ascii_of_N (Z.to_N (48 + d mod 10)).

Definition pad2 (n : Z) : string :=
  String (digit_char (n / 10)) (String (digit_char n) "").

Definition pad4 (n : Z) : string :=
  String (digit_char (n / 1000)) (String (digit_char (n / 100))
    (String (digit_char (n / 10)) (String (digit_char n) ""))).

Definition pad6 (n : Z) : string :=
  String (digit_char (n / 100000)) (String (digit_char (n / 10000))
    (String (digit_char (n / 1000)) (String (digit_char (n / 100))
      (String (digit_char (n / 10)) (String (digit_char n) ""))))).

(** [str(n)] for a natural number, most significant digit first. *)
Fixpoint nat_digits (fuel : nat) (n : Z) (acc : string) : string :=
  match fuel with
  | O => acc
  | S fuel' =>
      let acc' := String (digit_char n) acc in
      if n <? 10 then acc' else nat_digits fuel' (n / 10) acc'
  end.

Definition str_of_nat (n : nat) : string := nat_digits (S n) (Z.of_nat n) "".

(** ** datetime *)

Record datetime := {
  year : Z; month : Z; day : Z;
  hour : Z; minute : Z; second : Z; microsecond : Z
}.

(** The ranges of the fields of a [datetime.datetime] value. *)
Definition valid_datetime (t : datetime) : Prop :=
  1 <= year t <= 9999 /\ 1 <= month t <= 12 /\ 1 <= day t <= 31 /\
  0 <= hour t < 24 /\ 0 <= minute t < 60 /\ 0 <= second t < 60 /\
  0 <= microsecond t < 1000000.

(** [t.strftime("%Y%m%d_%H%M%S")] *)
Definition strftime_stamp (t : datetime) : string :=
  pad4 (year t) +:+ pad2 (month t) +:+ pad2 (day t) +:+ "_" +:+
  pad2 (hour t) +:+ pad2 (minute t) +:+ pad2 (second t).

(** [t.isoformat()] of a naive datetime: the fraction is printed only when
    the microsecond field is not zero. *)
Definition isoformat (t : datetime) : string :=
  pad4 (year t) +:+ "-" +:+ pad2 (month t) +:+ "-" +:+ pad2 (day t) +:+ "T" +:+
  pad2 (hour t) +:+ ":" +:+ pad2 (minute t) +:+ ":" +:+ pad2 (second t) +:+
  (if microsecond t =? 0 then "" else "." +:+ pad6 (microsecond t)).

(** *** What a valid ISO-8601 timestamp is

    The specification side of the provenance header: a reader of the
    calendar form [YYYY-MM-DDThh:mm:ss] with an optional fraction of six
    digits, which checks the range of every field. *)

Definition digit_val (c : ascii) : option Z :=
  let n := Z.of_N (N_of_ascii c) in
  if (48 <=? n) && (n <=? 57) then Some (n - 48) else None.

Fixpoint read_digits (k : nat) (s : string) (acc : Z) : option (Z * string) :=
  match k with
  | O => Some (acc, s)
  | S k' =>
      match s with
      | String c r => d ← digit_val c; read_digits k' r (10 * acc + d)
      | EmptyString => None
      end
  end.

Definition expect (c : ascii) (s : string) : option string :=
  match s with
  | String c' r => if Ascii.eqb c c' then Some r else None
  | EmptyString => None
  end.




Local Close Scope Z_scope.

(** ** Values of the program *)

(** The two exception classes the handlers distinguish.  Every fault of a
    library call is an [Exception]; [KeyboardInterrupt] is the operator's
    interrupt and is not an [Exception]. *)
Inductive exn :=
  | Exception (msg : string)
  | KeyboardInterrupt.

Abbreviation path := (list string).
Abbreviation token := nat.

(** A decoded [PIL.Image]: its colour mode and its pixel data. *)
Record image := { mode : string; pixels : list Z }.

Inductive content :=
  | ImageFile (i : image)
  | TextFile (s : string).

Inductive node :=
  | File (c : content)
  | Directory.

(** A [requests.Response]: the status code and [response.content]. *)
Record response := { status_code : Z; body : string }.

(** The conversation handed to the processor. *)
Inductive part :=
  | TextPart (text : string)
  | ImagePart (img : path).

Record message := { role : string; parts : list part }.

(** What [processor(...)] returns: the token rows and the image features. *)
Record model_inputs := { input_ids : list (list token); pixel_values : list Z }.

(** One event on standard input. *)
Inductive key :=
  | Line (s : string)
  | CtrlC.

(** ** The world *)

Record World := {
  stdin : list key;              (* what the operator will type *)
  stdout : list string;          (* texts written so far, oldest first *)
  fs : gmap path node;           (* the file system *)
  http_log : list string;        (* URLs requested, oldest first *)
  spawned : list (list string);  (* command lines run as child processes *)
  tick : nat                     (* clock readings taken so far *)
}.

Definition set_stdin (x : list key) (w : World) : World :=
  Build_World x (stdout w) (fs w) (http_log w) (spawned w) (tick w).
Definition set_stdout (x : list string) (w : World) : World :=
  Build_World (stdin w) x (fs w) (http_log w) (spawned w) (tick w).
Definition set_fs (x : gmap path node) (w : World) : World :=
  Build_World (stdin w) (stdout w) x (http_log w) (spawned w) (tick w).
Definition set_http_log (x : list string) (w : World) : World :=
  Build_World (stdin w) (stdout w) (fs w) x (spawned w) (tick w).
Definition set_spawned (x : list (list string)) (w : World) : World :=
  Build_World (stdin w) (stdout w) (fs w) (http_log w) x (tick w).
Definition set_tick (x : nat) (w : World) : World :=
  Build_World (stdin w) (stdout w) (fs w) (http_log w) (spawned w) x.

(** ** The environment: what the libraries and the machine answer *)

Record Env := {
  (* interpreter and platform *)
  cuda_is_available : bool;               (* torch.cuda.is_available() *)
  sys_executable : string;
  sys_argv : list string;
  script_dir : path;                      (* dirname(abspath(__file__)) *)
  os_sep : string;
  os_linesep : string;                    (* os.linesep *)
  subprocess_run : list string -> option exn;
  (* clocks: the n-th reading *)
  clock : nat -> datetime;                (* datetime.now() *)
  time_time : nat -> Z;                   (* time.time(), in microseconds *)
  format_2f : Z -> string;                (* f"{d:.2f}" of a duration *)
  (* faults of the local disk *)
  write_fault : path -> option exn;       (* opening a file for writing *)
  remove_fault : path -> option exn;      (* os.remove of an existing file *)
  (* requests *)
  requests_get : string -> exn + response;
  raise_for_status : response -> option exn;
  (* PIL *)
  Image_open : string -> exn + image;
  convert_pixels : string -> string -> list Z -> list Z;
  (* the module constant SYSTEM_PROMPT, a fixed text *)
  SYSTEM_PROMPT : string;
  (* transformers and qwen_vl_utils *)
  from_pretrained : option exn;
  apply_chat_template : list message -> exn + string;
  process_vision_info :
    list message -> gmap path node -> exn + (list image * list image);
  processor_call : string -> list image -> list image -> exn + model_inputs;
  to_cuda : model_inputs -> option exn;
  generate : model_inputs -> nat -> exn + list (list token);
  token_text : token -> string;
  is_special : token -> bool
}.

(** ** The monad: state and exceptions *)

Inductive result (A : Type) :=
  | Return (a : A)
  | Raise (e : exn).
Arguments Return {A} a.
Arguments Raise {A} e.

Definition M (A : Type) : Type := World -> result A * World.

Definition ret {A} (a : A) : M A := fun w => (Return a, w).

Definition raise {A} (e : exn) : M A := fun w => (Raise e, w).

Definition bind {A B} (m : M A) (k : A -> M B) : M B := fun w =>
  match m w with
  | (Return a, w') => k a w'
  | (Raise e, w') => (Raise e, w')
  end.

Notation "'do' x <- m ; k" := (bind m (fun x => k))
  (at level 10, x name, m at level 100, k at level 200, only parsing).
Notation "'run' m ; k" := (bind m (fun _ => k))
  (at level 10, m at level 100, k at level 200, only parsing).

(** [try: m  except Exception as e: handler e].  The effects of [m] up to
    the fault stay; a [KeyboardInterrupt] passes through. *)
Definition try_except {A} (m : M A) (handler : string -> M A) : M A := fun w =>
  match m w with
  | (Raise (Exception msg), w') => handler msg w'
  | r => r
  end.

(** A library call that returns a value or raises. *)
Definition call {A} (r : exn + A) : M A :=
  match r with
  | inl e => raise e
  | inr a => ret a
  end.

(** A library call made for its possible fault only. *)
Definition check (r : option exn) : M unit :=
  match r with
  | Some e => raise e
  | None => ret tt
  end.

Definition get_fs : M (gmap path node) := fun w => (Return (fs w), w).

(** [print(s)] *)
Definition print (s : string) : M unit := fun w =>
  (Return tt, set_stdout (stdout w ++ [s]) w).

(** [input(prompt)]: the prompt is written, then a line is read.  At end
    of input [EOFError] is raised. *)
Definition input (prompt : string) : M string := fun w =>
  let w1 := set_stdout (stdout w ++ [prompt]) w in
  match stdin w with
  | [] => (Raise (Exception "EOF when reading a line"), w1)
  | Line s :: rest => (Return s, set_stdin rest w1)
  | CtrlC :: rest => (Raise KeyboardInterrupt, set_stdin rest w1)
  end.

(** ** Paths and the file system *)

Definition MODEL_ID : string := "Qwen/Qwen2.5-VL-7B-Instruct".
Definition CACHE_DIR : path := ["."; "cache"].
Definition OUTPUT_DIR : path := ["."; "output"].
Definition HF_CACHE_DIR : string := "C:/HuggingFace".

(** [os.path.join(d, f)] *)
Definition os_path_join (d : path) (f : string) : path := d ++ [f].

(** [os.path.basename(p)] *)
Definition os_path_basename (p : path) : string := default "" (last p).

(** The name [n] when [k] is the entry [n] of the directory [d]. *)
Fixpoint entry_of (d k : path) : option string :=
  match d, k with
  | [], [n] => Some n
  | x :: d', y :: k' => if decide (x = y) then entry_of d' k' else None
  | _, _ => None
  end.

(** [os.listdir(d)] on a snapshot of the file system. *)
Definition listdir (d : path) (m : gmap path node) : list string :=
  omap (fun kv => entry_of d kv.1) (map_to_list m).

(** [os.path.isfile(p)] on a snapshot of the file system. *)
Definition isfile (m : gmap path node) (p : path) : bool :=
  match m !! p with
  | Some (File _) => true
  | _ => false
  end.

Section Program.

Variable env : Env.

(** The text of a path, as it is printed and tested for emptiness. *)
Definition path_str (p : path) : string := String.concat (os_sep env) p.

(** [os.path.exists(p)] *)
Definition os_path_exists (p : path) : M bool := fun w =>
  (Return (bool_decide (is_Some (fs w !! p))), w).

(** [os.remove(p)] *)
Definition os_remove (p : path) : M unit := fun w =>
  match fs w !! p with
  | None => (Raise (Exception "No such file or directory"), w)
  | Some Directory => (Raise (Exception "Is a directory"), w)
  | Some (File _) =>
      match remove_fault env p with
      | Some e => (Raise e, w)
      | None => (Return tt, set_fs (delete p (fs w)) w)
      end
  end.

(** Creating or truncating the file [p] and writing [c] to it. *)
Definition write_file (p : path) (c : content) : M unit := fun w =>
  match write_fault env p with
  | Some e => (Raise e, w)
  | None => (Return tt, set_fs (<[p := File c]> (fs w)) w)
  end.

(** [os.makedirs(d, exist_ok=True)] *)
Definition os_makedirs (d : path) : M unit := fun w =>
  match fs w !! d with
  | None => (Return tt, set_fs (<[d := Directory]> (fs w)) w)
  | Some Directory => (Return tt, w)
  | Some (File _) => (Raise (Exception "File exists"), w)
  end.

(** [datetime.now()] *)
Definition datetime_now : M datetime := fun w =>
  (Return (clock env (tick w)), set_tick (S (tick w)) w).

(** [time.time()] *)
Definition time_now : M Z := fun w =>
  (Return (time_time env (tick w)), set_tick (S (tick w)) w).

(** ** Startup *)

(** How a startup step ends: it returns, or it calls [sys.exit]. *)
Inductive startup :=
  | Proceed
  | SysExit (code : Z).

(** [check_cuda_and_restart()] *)
Definition check_cuda_and_restart : M startup :=
  if negb (cuda_is_available env) then
    run print "ERROR: CUDA is not available in the current Python environment." ;
    run print ("Current Python: " +:+ sys_executable env) ;
    let venv_python :=
      os_path_join (os_path_join (os_path_join (script_dir env) ".venv")
                                 "Scripts") "python.exe" in
    do found <- os_path_exists venv_python ;
    if found then
      run print (nl +:+ "Restarting with CUDA-enabled Python from: "
                 +:+ path_str venv_python) ;
      run print "------------------------------------------------------------" ;
      run (fun w =>
             let cmd := path_str venv_python :: sys_argv env in
             let w' := set_spawned (spawned w ++ [cmd]) w in
             match subprocess_run env cmd with
             | Some e => (Raise e, w')
             | None => (Return tt, w')
             end) ;
      ret (SysExit 0)
    else
      run print (nl +:+ "ERROR: Virtual environment not found at: "
                 +:+ path_str venv_python) ;
      run print (nl +:+ "Please run:") ;
      run print "  cd image-processor" ;
      run print "  .\.venv\Scripts\Activate.ps1" ;
      run print "  python main.py" ;
      ret (SysExit 1)
  else ret Proceed.

(** [setup_directories()] *)
Definition setup_directories : M unit :=
  run os_makedirs CACHE_DIR ;
  os_makedirs OUTPUT_DIR.

(** [load_model()]: the two [from_pretrained] calls either succeed or
    raise; the loaded model and processor are the fields of [env]. *)
Definition load_model : M startup :=
  run print ("Loading model: " +:+ MODEL_ID +:+ "...") ;
  run print ("Using cache directory: " +:+ HF_CACHE_DIR) ;
  run print "This may take a moment depending on your internet connection and disk speed." ;
  try_except
    (run check (from_pretrained env) ;
     run print "Model Loaded!" ;
     ret Proceed)
    (fun e =>
       run print ("Error loading model: " +:+ e) ;
       run print "Ensure you have installed the requirements: pip install -r requirements.txt" ;
       ret (SysExit 1)).

(** ** The Image Fetcher *)

(** [requests.get(url, timeout=10)] *)
Definition http_get (url : string) : M response := fun w =>
  let w' := set_http_log (http_log w ++ [url]) w in
  match requests_get env url with
  | inl e => (Raise e, w')
  | inr r => (Return r, w')
  end.

(** [image.convert(m)]: the result has the requested mode. *)
Definition Image_convert (i : image) (m : string) : image :=
  {| mode := m; pixels := convert_pixels env (mode i) m (pixels i) |}.

(** [image.save(p)]: the file at [p] is represented by the image saved
    into it. *)
Definition Image_save (i : image) (p : path) : M unit :=
  write_file p (ImageFile i).

(** [download_image(url)] *)
Definition download_image (url : string) : M (option path * option image) :=
  try_except
    (do response <- http_get url ;
     run check (raise_for_status env response) ;
     do now <- datetime_now ;
     let timestamp := strftime_stamp now in
     let filename := "image_" +:+ timestamp +:+ ".jpg" in
     let filepath := os_path_join CACHE_DIR filename in
     do image <- call (Image_open env (body response)) ;
     let image :=
       if negb (string_eqb (mode image) "RGB")
       then Image_convert image "RGB" else image in
     run Image_save image filepath ;
     ret (Some filepath, Some image))
    (fun e =>
       run print ("Error downloading image: " +:+ e) ;
       ret (None, None)).

(** ** The Inference Adapter *)

Definition USER_INSTRUCTION : string :=
  "Provide a complete, detailed description of this UI. Include all visible elements, their styling, positioning, and any visual indicators. Structure your response with headers and organize it by sections.".

(** [ids[n:]] *)
Definition slice_from (n : nat) (ids : list token) : list token := drop n ids.

(** [tokenizer.decode(ids, skip_special_tokens=skip,
    clean_up_tokenization_spaces=False)]: the texts of the tokens, one after
    the other, the special tokens left out when [skip] is set. *)
Definition decode (skip : bool) (ids : list token) : string :=
  String.concat ""
    (map (token_text env)
         (filter (fun t => negb (skip && is_special env t) = true) ids)).

(** [processor.batch_decode(rows, skip_special_tokens=skip, ...)] *)
Definition batch_decode (skip : bool) (rows : list (list token)) : list string :=
  map (decode skip) rows.

(** The two-role conversation built for [image_path]. *)
Definition chat_messages (image_path : path) : list message :=
  [ {| role := "system"; parts := [TextPart (SYSTEM_PROMPT env)] |};
    {| role := "user";
       parts := [ImagePart image_path; TextPart USER_INSTRUCTION] |} ].

(** [process_image(model, processor, image_path)] *)
Definition process_image (image_path : path) : M string :=
  let messages := chat_messages image_path in
  do text <- call (apply_chat_template env messages) ;
  do files <- get_fs ;
  do vision <- call (process_vision_info env messages files) ;
  let image_inputs := vision.1 in
  let video_inputs := vision.2 in
  do inputs <- call (processor_call env text image_inputs video_inputs) ;
  run check (to_cuda env inputs) ;
  do generated_ids <- call (generate env inputs 2048) ;
  let generated_ids_trimmed :=
    zip_with (fun in_ids out_ids => slice_from (length in_ids) out_ids)
             (input_ids inputs) generated_ids in
  let output_text := batch_decode true generated_ids_trimmed in
  match output_text with
  | first :: _ => ret first
  | [] => raise (Exception "list index out of range")
  end.

(** ** The Output Writer *)



(** [open(p, "w", encoding="utf-8")]: the file is created, or emptied when
    it exists. *)
Definition open_w (p : path) : M unit := write_file p (TextFile "").

(** [f.write(s)] on the text file open at [p]: [s] is appended. *)
Definition f_write (p : path) (s : string) : M unit := fun w =>
  match fs w !! p with
  | Some (File (TextFile t)) =>
      (Return tt, set_fs (<[p := File (TextFile (t +:+ s))]> (fs w)) w)
  | _ => (Raise (Exception "I/O operation on closed file"), w)
  end.

(** [save_output(content, original_url)]: the clock is read once for the
    file name and once more, after the first write, for the header. *)
Definition save_output (content original_url : string) : M path :=
  do now <- datetime_now ;
  let timestamp := strftime_stamp now in
  let filename := "output_" +:+ timestamp +:+ ".md" in
  let filepath := os_path_join OUTPUT_DIR filename in
  run open_w filepath ;
  run f_write filepath ("<!-- Source: " +:+ original_url +:+ " -->" +:+ nl) ;
  do now' <- datetime_now ;
  run f_write filepath ("<!-- Date: " +:+ isoformat now' +:+ " -->" +:+ nl +:+ nl) ;
  run f_write filepath content ;
  ret filepath.

(** ** The Session Loop *)

Inductive control :=
  | Continue
  | Break.

Definition quit_keywords : list string := ["q"; "quit"; "exit"].

(** Truth value of a path string: [not p] holds for the empty string. *)
Definition path_is_empty (p : path) : bool := string_eqb (path_str p) "".

(** The removal loop of the sweep, each removal under its own
    [try: ... except Exception: pass]. *)
Fixpoint remove_each (cache_files : list string) : M unit :=
  match cache_files with
  | [] => ret tt
  | cache_file :: rest =>
      run try_except (os_remove (os_path_join CACHE_DIR cache_file))
                     (fun _ => ret tt) ;
      remove_each rest
  end.

(** The clean-up block at the end of a successful iteration. *)
Definition cleanup (image_path : path) : M unit :=
  try_except
    (do found <- (if negb (path_is_empty image_path)
                  then os_path_exists image_path else ret false) ;
     run (if found then os_remove image_path else ret tt) ;
     do files <- get_fs ;
     let cache_files :=
       filter (fun f => isfile files (os_path_join CACHE_DIR f) = true)
              (listdir CACHE_DIR files) in
     match cache_files with
     | _ :: _ =>
         run remove_each cache_files ;
         print ("Cache cleared: " +:+ str_of_nat (length cache_files + 1)
                +:+ " file(s) removed")
     | [] =>
         print ("Cache cleared: " +:+ os_path_basename image_path)
     end)
    (fun e => print ("Warning: Could not delete cached image: " +:+ e)).

(** The preview line: the first 200 characters and an ellipsis when the
    text is longer. *)
Definition preview (markdown_content : string) : string :=
  if 200 <? char_length markdown_content
  then str_take 200 markdown_content +:+ "..."
  else markdown_content.

(** Steps 3 to 5 of an iteration and its clean-up: what the [try] block
    does with an input that is neither a quit keyword nor empty. *)
Definition handle_url (user_input : string) : M control :=
  run print "Downloading image..." ;
  do fetched <- download_image user_input ;
  match fetched.1 with
  | None => ret Continue
  | Some image_path =>
      if path_is_empty image_path then ret Continue
      else
        run print "Processing image (this may take a few seconds)..." ;
        do start_time <- time_now ;
        do markdown_content <- process_image image_path ;
        do end_time <- time_now ;
        let duration := (end_time - start_time)%Z in
        do output_path <- save_output markdown_content user_input ;
        run print (nl +:+ "Success! (" +:+ format_2f env duration +:+ "s)") ;
        run print ("Saved to: " +:+ path_str output_path) ;
        run print "------------------------------" ;
        run print (preview markdown_content) ;
        run cleanup image_path ;
        ret Continue
  end.

(** The statements inside the [try] of the loop, for one iteration. *)
Definition try_body : M control :=
  do line <- input (nl +:+ "Image URL > ") ;
  let user_input := strip line in
  if bool_decide (lower user_input ∈ quit_keywords) then
    run print "Exiting..." ;
    ret Break
  else if string_eqb user_input "" then
    ret Continue
  else
    handle_url user_input.

(** One iteration with the two handlers of the loop. *)
Definition loop_body : World -> control * World := fun w =>
  match try_body w with
  | (Return c, w') => (c, w')
  | (Raise KeyboardInterrupt, w') =>
      (Break, set_stdout (stdout w' ++ [nl +:+ "Exiting..."]) w')
  | (Raise (Exception e), w') =>
      (Continue,
       set_stdout (stdout w' ++ ["An unexpected error occurred: " +:+ e]) w')
  end.

(** [while True:], run for at most [fuel] iterations.  The flag tells
    whether the loop was left by [break]; it is [false] when the loop is
    still running after [fuel] iterations. *)
Fixpoint session (fuel : nat) (w : World) : bool * World :=
  match fuel with
  | O => (false, w)
  | S fuel' =>
      match loop_body w with
      | (Break, w') => (true, w')
      | (Continue, w') => session fuel' w'
      end
  end.

(** How the process ends. *)
Inductive process_end :=
  | Exited (code : Z)
  | Uncaught (e : exn)
  | Running.

(** [main()] *)
Definition main (fuel : nat) (w : World) : process_end * World :=
  match check_cuda_and_restart w with
  | (Raise e, w1) => (Uncaught e, w1)
  | (Return (SysExit c), w1) => (Exited c, w1)
  | (Return Proceed, w1) =>
      match setup_directories w1 with
      | (Raise e, w2) => (Uncaught e, w2)
      | (Return _, w2) =>
          match load_model w2 with
          | (Raise e, w3) => (Uncaught e, w3)
          | (Return (SysExit c), w3) => (Exited c, w3)
          | (Return Proceed, w3) =>
              let w4 :=
                set_stdout
                  (stdout w3 ++
                   [nl +:+ "--- VLM CLI Tool Ready ---";
                    "Enter an image URL to process, or 'q' to quit."]) w3 in
              match session fuel w4 with
              | (true, w5) => (Exited 0, w5)
              | (false, w5) => (Running, w5)
              end
          end
      end
  end.

End Program.

(** ** A concrete machine, for the examples *)

Module Sample.

Definition noon : datetime :=
  {| year := 2024; month := 1; day := 2;
     hour := 3; minute := 4; second := 5; microsecond := 0 |}.

(** A transparent PNG, as decoded. *)
Definition png : image := {| mode := "RGBA"; pixels := [10; 20; 30; 0]%Z |}.

Definition tokenizer_text (t : token) : string :=
  match t with
  | 7 => "# Overview"
  | 8 => "!"
  | _ => "<|im_end|>"
  end.

(** A machine on which every call succeeds: the prompt is the three tokens
    1 2 3, the model echoes it and continues with 7 0 8, token 0 is special. *)
Definition good : Env := {|
  cuda_is_available := true;
  sys_executable := "python";
  sys_argv := ["main.py"];
  script_dir := ["C:"; "image-processor"];
  os_sep := "/";
  os_linesep := nl;
  subprocess_run := fun _ => None;
  clock := fun _ => noon;
  time_time := fun n => Z.of_nat n;
  format_2f := fun _ => "1.00";
  write_fault := fun _ => None;
  remove_fault := fun _ => None;
  requests_get := fun _ => inr {| status_code := 200; body := "PNG" |};
  raise_for_status := fun _ => None;
  Image_open := fun _ => inr png;
  convert_pixels := fun _ _ px => take 3 px;
  SYSTEM_PROMPT := "You are an expert image documentation specialist";
  from_pretrained := None;
  apply_chat_template := fun _ => inr "chat";
  process_vision_info := fun _ _ => inr ([png], []);
  processor_call :=
    fun _ _ _ => inr {| input_ids := [[1; 2; 3]]; pixel_values := [] |};
  to_cuda := fun _ => None;
  generate := fun _ _ => inr [[1; 2; 3; 7; 0; 8]];
  token_text := tokenizer_text;
  is_special := fun t => Nat.eqb t 0
|}.

(** The same machine with a model that faults during generation. *)
Definition faulty_model : Env := {|
  cuda_is_available := true;
  sys_executable := "python";
  sys_argv := ["main.py"];
  script_dir := ["C:"; "image-processor"];
  os_sep := "/";
  os_linesep := nl;
  subprocess_run := fun _ => None;
  clock := fun _ => noon;
  time_time := fun n => Z.of_nat n;
  format_2f := fun _ => "1.00";
  write_fault := fun _ => None;
  remove_fault := fun _ => None;
  requests_get := fun _ => inr {| status_code := 200; body := "PNG" |};
  raise_for_status := fun _ => None;
  Image_open := fun _ => inr png;
  convert_pixels := fun _ _ px => take 3 px;
  SYSTEM_PROMPT := "You are an expert image documentation specialist";
  from_pretrained := None;
  apply_chat_template := fun _ => inr "chat";
  process_vision_info := fun _ _ => inr ([png], []);
  processor_call :=
    fun _ _ _ => inr {| input_ids := [[1; 2; 3]]; pixel_values := [] |};
  to_cuda := fun _ => None;
  generate := fun _ _ => inl (Exception "CUDA out of memory");
  token_text := tokenizer_text;
  is_special := fun t => Nat.eqb t 0
|}.

(** A machine without a GPU. *)
Definition no_gpu : Env := {|
  cuda_is_available := false;
  sys_executable := "python";
  sys_argv := ["main.py"];
  script_dir := ["C:"; "image-processor"];
  os_sep := "/";
  os_linesep := nl;
  subprocess_run := fun _ => None;
  clock := fun _ => noon;
  time_time := fun n => Z.of_nat n;
  format_2f := fun _ => "1.00";
  write_fault := fun _ => None;
  remove_fault := fun _ => None;
  requests_get := fun _ => inl (Exception "Connection refused");
  raise_for_status := fun _ => None;
  Image_open := fun _ => inr png;
  convert_pixels := fun _ _ px => take 3 px;
  SYSTEM_PROMPT := "You are an expert image documentation specialist";
  from_pretrained := None;
  apply_chat_template := fun _ => inr "chat";
  process_vision_info := fun _ _ => inr ([png], []);
  processor_call :=
    fun _ _ _ => inr {| input_ids := [[1; 2; 3]]; pixel_values := [] |};
  to_cuda := fun _ => None;
  generate := fun _ _ => inr [[1; 2; 3; 7; 0; 8]];
  token_text := tokenizer_text;
  is_special := fun t => Nat.eqb t 0
|}.

(** A world in which the operator types [lines] and the disk holds [files]. *)
Definition world (lines : list key) (files : gmap path node) : World :=
  {| stdin := lines; stdout := []; fs := files;
     http_log := []; spawned := []; tick := 0 |}.

End Sample.

(** ** The vocabulary of the properties *)

Definition venv_python (env : Env) : path :=
  os_path_join (os_path_join (os_path_join (script_dir env) ".venv")
                             "Scripts") "python.exe".

(** Where [download_image] saves when it runs in the world [w]. *)
Definition cache_path (env : Env) (w : World) : path :=
  os_path_join CACHE_DIR
    ("image_" +:+ strftime_stamp (clock env (tick w)) +:+ ".jpg").

(** The three calls of the fetch that can raise: the request, the status
    check [response.raise_for_status()] (which the requests library makes
    raise for the statuses 400 to 599, see [requests_contract]), and the
    decoding of the body. *)
Definition fetch_fails (env : Env) (url msg : string) : Prop :=
  requests_get env url = inl (Exception msg) \/
  (exists r, requests_get env url = inr r /\
             raise_for_status env r = Some (Exception msg)) \/
  (exists r, requests_get env url = inr r /\
             raise_for_status env r = None /\
             Image_open env (body r) = inl (Exception msg)).

(** The fetch succeeds: the request, the status check and the decoding
    return, with the image [img]. *)
Definition fetch_decodes (env : Env) (url : string) (img : image) : Prop :=
  exists r, requests_get env url = inr r /\
            raise_for_status env r = None /\
            Image_open env (body r) = inr img.

(** The image [download_image] keeps: [img] itself in mode RGB, its
    conversion otherwise. *)
Definition normalized (env : Env) (img : image) : image :=
  if negb (string_eqb (mode img) "RGB") then Image_convert env img "RGB" else img.

(** Where [save_output] writes when it runs in the world [w]. *)
Definition output_path (env : Env) (w : World) : path :=
  os_path_join OUTPUT_DIR
    ("output_" +:+ strftime_stamp (clock env (tick w)) +:+ ".md").

(** The text of the document for [original_url], stamped [stamp], with the
    generated text [content]. *)
Definition document (original_url : string) (stamp : datetime) (content : string)
  : string :=
  ("<!-- Source: " +:+ original_url +:+ " -->" +:+ nl) +:+
  ("<!-- Date: " +:+ isoformat stamp +:+ " -->" +:+ nl +:+ nl) +:+
  content.

(** A disk on which a description was already saved in the second
    03:04:05 of 2 January 2024. *)
Definition taken_output : gmap path node :=
  {[ [".";"output";"output_20240102_030405.md"] :=
       File (TextFile "first description") ]}.

(** The preparation of [process_image] goes through: the chat template,
    the vision inputs, the processor and the move to the GPU all return,
    and [inputs] is what [model.generate] is given. *)
Definition prepared (env : Env) (image_path : path) (files : gmap path node)
    (inputs : model_inputs) : Prop :=
  exists text vision,
    apply_chat_template env (chat_messages env image_path) = inr text /\
    process_vision_info env (chat_messages env image_path) files = inr vision /\
    processor_call env text vision.1 vision.2 = inr inputs /\
    to_cuda env inputs = None.

(** The text of the tokens that are not special, in order. *)
Definition visible_text (env : Env) (ids : list token) : string :=
  String.concat ""
    (map (token_text env) (filter (fun t => is_special env t = false) ids)).

(** Two characters that differ at most in letter case. *)
Definition same_letter (a b : ascii) : bool :=
  Ascii.eqb (ascii_lower a) (ascii_lower b).

(** Two strings that differ at most in letter case. *)
Fixpoint eq_ignore_case (a b : string) : bool :=
  match a, b with
  | EmptyString, EmptyString => true
  | String x a', String y b' => same_letter x y && eq_ignore_case a' b'
  | _, _ => false
  end.

(** A byte that is, or starts, a white-space character. *)
Definition starts_space (c : ascii) : bool :=
  let n := nat_of_ascii c in
  is_space c || (n =? 194) || (n =? 225) || (n =? 226) || (n =? 227).

Fixpoint no_space (s : string) : bool :=
  match s with
  | EmptyString => true
  | String c r => negb (starts_space c) && no_space r
  end.

(** A computation that, when it returns, returns [Continue]. *)
Definition never_breaks (m : M control) : Prop :=
  forall w c w', m w = (Return c, w') -> c = Continue.

(** No regular file stands where the two working directories go. *)
Definition directories_free (w : World) : Prop :=
  (forall c, fs w !! CACHE_DIR <> Some (File c)) /\
  (forall c, fs w !! OUTPUT_DIR <> Some (File c)).

(** The command line of the relaunch. *)
Definition relaunch_command (env : Env) : list string :=
  path_str env (venv_python env) :: sys_argv env.

(** A disk on which the interpreter of the virtual environment exists. *)
Definition venv_disk : gmap path node :=
  {[ ["C:"; "image-processor"; ".venv"; "Scripts"; "python.exe"] :=
       File (TextFile "") ]}.

(** A disk on which a regular file is named like the scratch directory. *)
Definition blocked_disk : gmap path node :=
  {[ ["."; "cache"] := File (TextFile "") ]}.

(** The machine [e] with some of its answers replaced. *)
Definition variant (e : Env) (cuda : bool) (load : option exn)
    (spawn : list string -> option exn)
    (get : string -> exn + response)
    (unlink : path -> option exn)
    (gen : model_inputs -> nat -> exn + list (list token)) : Env := {|
  cuda_is_available := cuda;
  sys_executable := sys_executable e;
  sys_argv := sys_argv e;
  script_dir := script_dir e;
  os_sep := os_sep e;
  os_linesep := os_linesep e;
  subprocess_run := spawn;
  clock := clock e;
  time_time := time_time e;
  format_2f := format_2f e;
  write_fault := write_fault e;
  remove_fault := unlink;
  requests_get := get;
  raise_for_status := raise_for_status e;
  Image_open := Image_open e;
  convert_pixels := convert_pixels e;
  SYSTEM_PROMPT := SYSTEM_PROMPT e;
  from_pretrained := load;
  apply_chat_template := apply_chat_template e;
  process_vision_info := process_vision_info e;
  processor_call := processor_call e;
  to_cuda := to_cuda e;
  generate := gen;
  token_text := token_text e;
  is_special := is_special e
|}.

(** A machine whose model cannot be loaded. *)
Definition no_model : Env :=
  variant Sample.good true (Some (Exception "out of memory"))
          (subprocess_run Sample.good) (requests_get Sample.good)
          (remove_fault Sample.good) (generate Sample.good).

(** A string of white space only (the empty string included). *)
Fixpoint all_space (s : string) : bool :=
  match s with
  | EmptyString => true
  | String c r => is_space c && all_space r
  end.

(** What the loop writes when it asks for input, and what it reports when
    standard input is at its end. *)
Definition PROMPT : string := nl +:+ "Image URL > ".
Definition EOF_REPORT : string :=
  "An unexpected error occurred: EOF when reading a line".

(** A machine on which the operator interrupts the download. *)
Definition interrupted_fetch : Env :=
  variant Sample.good true None
          (subprocess_run Sample.good) (fun _ => inl KeyboardInterrupt)
          (remove_fault Sample.good) (generate Sample.good).

(** What a sweep over the names [l] may do to a path between the file
    systems [m] and [m']: leave it as it was, or remove it when it is a
    listed regular file whose removal does not fault. *)
Definition swept_or_kept (env : Env) (l : list string)
    (m m' : gmap path node) (q : path) : Prop :=
  m' !! q = m !! q \/
  (m' !! q = None /\ q ∈ (os_path_join CACHE_DIR <$> l) /\
   isfile m q = true /\ remove_fault env q = None).

(** A machine on which the file [stuck.tmp] of the scratch directory
    cannot be removed. *)
Definition stuck_file : Env :=
  variant Sample.good true None
          (subprocess_run Sample.good) (requests_get Sample.good)
          (fun p => if decide (p = [".";"cache";"stuck.tmp"])
                    then Some (Exception "Access is denied") else None)
          (generate Sample.good).

(** A scratch directory with two stray files. *)
Definition stray_disk : gmap path node :=
  {[ [".";"cache";"stuck.tmp"] := File (TextFile "a");
     [".";"cache";"old.jpg"] := File (ImageFile Sample.png) ]}.

(** A machine on which no file can be removed. *)
Definition locked_disk : Env :=
  variant Sample.good true None
          (subprocess_run Sample.good) (requests_get Sample.good)
          (fun _ => Some (Exception "Access is denied"))
          (generate Sample.good).

(** The computation [m] takes every world to one related to it by [R]. *)
Definition preserves (R : World -> World -> Prop) {A} (m : M A) : Prop :=
  forall w, R w (m w).2.

(** The file systems of two worlds agree outside the entries of the two
    working directories. *)
Definition same_outside_working_dirs (w w' : World) : Prop :=
  forall q, entry_of CACHE_DIR q = None -> entry_of OUTPUT_DIR q = None ->
            fs w' !! q = fs w !! q.

(** A path that is an entry of one of the two working directories. *)
Definition working_entry (q : path) : Prop :=
  is_Some (entry_of CACHE_DIR q) \/ is_Some (entry_of OUTPUT_DIR q).

(** A disk with a file of the operator's next to the working directories. *)
Definition home_disk : gmap path node :=
  {[ ["."; "notes.txt"] := File (TextFile "mine");
     [".";"cache";"old.jpg"] := File (ImageFile Sample.png) ]}.

(** Two worlds with the same log of requests. *)
Definition same_requests (w w' : World) : Prop := http_log w' = http_log w.

(** Two worlds whose file systems agree at every path other than [p] that
    is not an entry of the scratch directory. *)
Definition same_outside_cache (p : path) (w w' : World) : Prop :=
  forall q, q <> p -> entry_of CACHE_DIR q = None -> fs w' !! q = fs w !! q.

(** Two datetimes in the same second. *)
Definition same_second (a b : datetime) : Prop :=
  year a = year b /\ month a = month b /\ day a = day b /\
  hour a = hour b /\ minute a = minute b /\ second a = second b.

(** Reading back a stamp [YYYYMMDD_HHMMSS] at the head of a string. *)
Definition read_stamp (s : string) : option (Z * Z * Z * Z * Z * Z * string) :=
  '(y, s) ← read_digits 4 s 0%Z;
  '(mo, s) ← read_digits 2 s 0%Z;
  '(d, s) ← read_digits 2 s 0%Z;
  s ← expect "_" s;
  '(h, s) ← read_digits 2 s 0%Z;
  '(mi, s) ← read_digits 2 s 0%Z;
  '(se, s) ← read_digits 2 s 0%Z;
  Some (y, mo, d, h, mi, se, s).

(** A clock that advances by one second at each reading. *)
Definition ticking : Env :=
  {| cuda_is_available := true;
     sys_executable := sys_executable Sample.good;
     sys_argv := sys_argv Sample.good;
     script_dir := script_dir Sample.good;
     os_sep := os_sep Sample.good;
     os_linesep := os_linesep Sample.good;
     subprocess_run := subprocess_run Sample.good;
     clock := fun n =>
       {| year := 2024; month := 1; day := 2; hour := 3; minute := 4;
          second := Z.of_nat n; microsecond := 0 |};
     time_time := time_time Sample.good;
     format_2f := format_2f Sample.good;
     write_fault := write_fault Sample.good;
     remove_fault := remove_fault Sample.good;
     requests_get := requests_get Sample.good;
     raise_for_status := raise_for_status Sample.good;
     Image_open := Image_open Sample.good;
     convert_pixels := convert_pixels Sample.good;
     SYSTEM_PROMPT := SYSTEM_PROMPT Sample.good;
     from_pretrained := None;
     apply_chat_template := apply_chat_template Sample.good;
     process_vision_info := process_vision_info Sample.good;
     processor_call := processor_call Sample.good;
     to_cuda := to_cuda Sample.good;
     generate := generate Sample.good;
     token_text := token_text Sample.good;
     is_special := is_special Sample.good |}.

(** A machine on which nothing can be written into the output directory. *)
Definition readonly_output : Env :=
  {| cuda_is_available := true;
     sys_executable := sys_executable Sample.good;
     sys_argv := sys_argv Sample.good;
     script_dir := script_dir Sample.good;
     os_sep := os_sep Sample.good;
     os_linesep := os_linesep Sample.good;
     subprocess_run := subprocess_run Sample.good;
     clock := clock Sample.good;
     time_time := time_time Sample.good;
     format_2f := format_2f Sample.good;
     write_fault := fun p =>
       match entry_of OUTPUT_DIR p with
       | Some _ => Some (Exception "Permission denied")
       | None => None
       end;
     remove_fault := remove_fault Sample.good;
     requests_get := requests_get Sample.good;
     raise_for_status := raise_for_status Sample.good;
     Image_open := Image_open Sample.good;
     convert_pixels := convert_pixels Sample.good;
     SYSTEM_PROMPT := SYSTEM_PROMPT Sample.good;
     from_pretrained := None;
     apply_chat_template := apply_chat_template Sample.good;
     process_vision_info := process_vision_info Sample.good;
     processor_call := processor_call Sample.good;
     to_cuda := to_cuda Sample.good;
     generate := generate Sample.good;
     token_text := token_text Sample.good;
     is_special := is_special Sample.good |}.

(** The regular files listed in the scratch directory of [m]. *)
Definition cache_files_of (m : gmap path node) : list string :=
  filter (fun f => isfile m (os_path_join CACHE_DIR f) = true)
         (listdir CACHE_DIR m).










(** The no-break space U+00A0. *)
Definition NBSP : string := String "194" (String "160" "").

(** * Properties *)

(** ** Startup: the accelerator check *)

(** C9. Without CUDA: when the interpreter of the project's virtual
    environment is missing, [check_cuda_and_restart] prints the operator
    instructions and calls [sys.exit(1)], so that [main] ends with the
    non-zero status 1; when it exists, the script is launched again under
    it, with the same arguments. *)
Theorem check_cuda_without_gpu (env : Env) (w : World) :
  cuda_is_available env = false ->
  (fs w !! venv_python env = None ->
   exists w',
     check_cuda_and_restart env w = (Return (SysExit 1), w') /\
     (forall fuel, main env fuel w = (Exited 1, w')) /\
     stdout w' = stdout w ++
       [ "ERROR: CUDA is not available in the current Python environment.";
         "Current Python: " +:+ sys_executable env;
         nl +:+ "ERROR: Virtual environment not found at: "
            +:+ path_str env (venv_python env);
         nl +:+ "Please run:";
         "  cd image-processor";
         "  .\.venv\Scripts\Activate.ps1";
         "  python main.py" ] /\
     spawned w' = spawned w) /\
  (is_Some (fs w !! venv_python env) ->
   exists r w',
     check_cuda_and_restart env w = (r, w') /\
     spawned w' = spawned w ++ [path_str env (venv_python env) :: sys_argv env] /\
     match subprocess_run env (path_str env (venv_python env) :: sys_argv env) with
     | None => r = Return (SysExit 0)
     | Some e => r = Raise e
     end).
Proof.
  intros Hcuda. unfold check_cuda_and_restart, main, check_cuda_and_restart.
  rewrite Hcuda. cbn [negb]. fold (venv_python env).
  unfold bind, print, os_path_exists, ret. cbn.
  split.
  - intros Hnone. rewrite Hnone.
    rewrite bool_decide_eq_false_2 by (intros [x Hx]; discriminate).
    eexists. split; [reflexivity|]. split; [reflexivity|].
    cbn. rewrite <- !app_assoc. split; reflexivity.
  - intros Hsome. rewrite bool_decide_eq_true_2 by assumption.
    destruct (subprocess_run env _) eqn:E; do 2 eexists;
      (split; [reflexivity|]); cbn; split; reflexivity.
Qed.

Lemma check_cuda_without_gpu_witness :
  exists w',
    check_cuda_and_restart Sample.no_gpu (Sample.world [] ∅)
      = (Return (SysExit 1), w') /\
    main Sample.no_gpu 3 (Sample.world [] ∅) = (Exited 1, w').
Proof.
  destruct (check_cuda_without_gpu Sample.no_gpu (Sample.world [] ∅) eq_refl)
    as [Hmissing _].
  destruct (Hmissing eq_refl) as (w' & Hcheck & Hmain & _).
  exists w'. split; [exact Hcheck | exact (Hmain 3%nat)].
Defined.

(** ** The Image Fetcher *)

Arguments strftime_stamp : simpl never.
Arguments isoformat : simpl never.

Ltac run_fetch :=
  unfold download_image, try_except, bind, http_get, check, call,
    datetime_now, Image_save, write_file, ret, raise, print; cbn.

Lemma download_image_success (env : Env) (url : string) (w : World) (img : image) :
  fetch_decodes env url img ->
  write_fault env (cache_path env w) = None ->
  download_image env url w =
    (Return (Some (cache_path env w), Some (normalized env img)),
     set_fs (<[cache_path env w := File (ImageFile (normalized env img))]> (fs w))
       (set_tick (S (tick w)) (set_http_log (http_log w ++ [url]) w))).
Proof.
  intros (r & Hget & Hstatus & Hopen) Hwrite.
  unfold cache_path in *. cbn in Hwrite. run_fetch.
  rewrite Hget, Hstatus. cbn. rewrite Hopen. cbn.
  rewrite Hwrite. reflexivity.
Qed.

Lemma entry_of_join (d : path) (f : string) :
  entry_of d (os_path_join d f) = Some f.
Proof.
  induction d as [|x d IH]; cbn; [reflexivity|].
  destruct (decide (x = x)); [exact IH | congruence].
Qed.

Lemma path_str_cache_nonempty (env : Env) (f : string) :
  path_is_empty env (os_path_join CACHE_DIR f) = false.
Proof.
  unfold path_is_empty, string_eqb, path_str. cbn.
  apply bool_decide_eq_false_2. discriminate.
Qed.


(** C5. When the body decodes as an image, [download_image] returns a
    path and an image in mode RGB whatever the mode of the source was, and
    the file saved at that path holds that RGB image. *)
Theorem download_image_returns_rgb
  (env : Env) (url : string) (w : World) (img : image) :
  fetch_decodes env url img ->
  write_fault env (cache_path env w) = None ->
  exists p rgb w',
    download_image env url w = (Return (Some p, Some rgb), w') /\
    mode rgb = "RGB" /\
    fs w' !! p = Some (File (ImageFile rgb)) /\
    (mode img <> "RGB" -> rgb = Image_convert env img "RGB") /\
    (mode img = "RGB" -> rgb = img).
Proof.
  intros Hok Hwrite.
  exists (cache_path env w), (normalized env img). eexists.
  split; [apply download_image_success; assumption|].
  cbn [fs set_fs]. unfold normalized, string_eqb.
  destruct (bool_decide (mode img = "RGB")) eqn:E; cbn [negb].
  - apply bool_decide_eq_true_1 in E.
    split; [assumption|]. split; [apply lookup_insert_eq|].
    split; [congruence | reflexivity].
  - apply bool_decide_eq_false_1 in E.
    split; [reflexivity|]. split; [apply lookup_insert_eq|].
    split; [reflexivity | congruence].
Qed.

Lemma download_image_returns_rgb_witness :
  exists p rgb w',
    download_image Sample.good "https://example.com/transparent.png"
                   (Sample.world [] ∅) = (Return (Some p, Some rgb), w') /\
    mode Sample.png = "RGBA" /\ mode rgb = "RGB" /\
    fs w' !! p = Some (File (ImageFile rgb)).
Proof.
  destruct (download_image_returns_rgb
              Sample.good "https://example.com/transparent.png"
              (Sample.world [] ∅) Sample.png
              (ex_intro _ {| status_code := 200; body := "PNG" |}
                 (conj eq_refl (conj eq_refl eq_refl))) eq_refl)
    as (p & rgb & w' & Hrun & Hmode & Hfile & _).
  exists p, rgb, w'. repeat split; assumption.
Defined.

(** C10. [download_image] returns both a path and an image, or neither:
    never one without the other.  The path it returns is a non-empty
    string, so the caller's test [not image_path] tells success from
    failure.  The only exception it lets through is the operator's
    interrupt. *)
Theorem download_image_both_or_neither (env : Env) (url : string) (w : World) :
  match download_image env url w with
  | (Return (None, None), _) => True
  | (Return (Some p, Some _), _) => path_is_empty env p = false
  | (Return (Some _, None), _) => False
  | (Return (None, Some _), _) => False
  | (Raise e, _) => e = KeyboardInterrupt
  end.
Proof.
  run_fetch.
  destruct (requests_get env url) as [[msg|]|r]; cbn; try exact I; try reflexivity.
  destruct (raise_for_status env r) as [[msg|]|]; cbn; try exact I; try reflexivity.
  destruct (Image_open env (body r)) as [[msg|]|img]; cbn; try exact I; try reflexivity.
  destruct (write_fault env _) as [[msg|]|]; cbn; try exact I; reflexivity.
Qed.

(** ** Timestamps *)

Section Timestamps.

Local Open Scope Z_scope.

Lemma append_cons (c : ascii) (s r : string) :
  String c s +:+ r = String c (s +:+ r).
Proof. reflexivity. Qed.

Lemma append_nil (r : string) : "" +:+ r = r.
Proof. reflexivity. Qed.


Lemma digit_val_char (d : Z) : digit_val (digit_char d) = Some (d mod 10).
Proof.
  unfold digit_val, digit_char.
  pose proof (Z.mod_pos_bound d 10 ltac:(lia)) as Hd.
  rewrite N_ascii_embedding by lia.
  rewrite Z2N.id by lia.
  replace ((48 <=? 48 + d mod 10) && (48 + d mod 10 <=? 57)) with true.
  - f_equal. lia.
  - symmetry. apply andb_true_intro. split; apply Z.leb_le; lia.
Qed.


Local Arguments digit_char : simpl never.
Local Arguments digit_val : simpl never.

Ltac push_append := rewrite ?append_cons, ?append_nil.

Ltac read_padded :=
  push_append; cbn; rewrite !digit_val_char; cbn;
  do 2 f_equal; Z.to_euclidean_division_equations; lia.

Lemma read_pad2 (n : Z) (rest : string) :
  0 <= n < 100 -> read_digits 2 (pad2 n +:+ rest) 0 = Some (n, rest).
Proof. intros H. unfold pad2. read_padded. Qed.

Lemma read_pad4 (n : Z) (rest : string) :
  0 <= n < 10000 -> read_digits 4 (pad4 n +:+ rest) 0 = Some (n, rest).
Proof. intros H. unfold pad4. read_padded. Qed.


Local Arguments pad2 : simpl never.
Local Arguments pad4 : simpl never.
Local Arguments pad6 : simpl never.
Local Arguments read_digits : simpl never.








End Timestamps.

(** ** Lines of a text *)



Lemma append_assoc (a b c : string) : (a +:+ b) +:+ c = a +:+ (b +:+ c).
Proof.
  induction a as [|x a IH]; [reflexivity|].
  rewrite !append_cons, IH. reflexivity.
Qed.

(** Stripping a line that has no line feed leaves none: the URL the loop
    hands to [save_output] is a single line. *)
Lemma has_LF_lstrip_bounded (n : nat) (s : string) :
  String.length s <= n -> has_LF s = false -> has_LF (lstrip s) = false.
Proof.
  revert s. induction n as [|n IH]; intros s Hlen H.
  - destruct s; [reflexivity | cbn in Hlen; lia].
  - destruct s as [|a r]; [reflexivity|].
    cbn [String.length] in Hlen. cbn [has_LF] in H.
    apply orb_false_elim in H as [Ha Hr]. cbn [lstrip].
    destruct (is_space a); [apply IH; [lia | exact Hr]|].
    destruct r as [|b r2]; [cbn [has_LF]; rewrite Ha; reflexivity|].
    cbn [String.length] in Hlen. cbn [has_LF] in Hr.
    apply orb_false_elim in Hr as [Hb Hr2].
    destruct (space2 a b); [apply IH; [lia | exact Hr2]|].
    destruct r2 as [|c r3]; [cbn [has_LF]; rewrite Ha, Hb; reflexivity|].
    cbn [String.length] in Hlen.
    destruct (space3 a b c).
    + cbn [has_LF] in Hr2. apply orb_false_elim in Hr2 as [_ Hr3].
      apply IH; [lia | exact Hr3].
    + cbn [has_LF] in *. rewrite Ha, Hb, Hr2. reflexivity.
Qed.

Lemma has_LF_lstrip (s : string) : has_LF s = false -> has_LF (lstrip s) = false.
Proof. apply (has_LF_lstrip_bounded (String.length s)). lia. Qed.

Lemma has_LF_rstrip (s : string) : has_LF s = false -> has_LF (rstrip s) = false.
Proof.
  induction s as [|c r IH]; [reflexivity|]. intros H.
  cbn [has_LF] in H. apply orb_false_elim in H as [Hc Hr].
  cbn [rstrip]. destruct (all_white (String c r)); [reflexivity|].
  cbn [has_LF]. rewrite Hc. exact (IH Hr).
Qed.

Lemma has_LF_strip (s : string) : has_LF s = false -> has_LF (strip s) = false.
Proof. intros H. unfold strip. apply has_LF_rstrip, has_LF_lstrip, H. Qed.

(** ** The Output Writer *)

Lemma save_output_run (env : Env) (content url : string) (w : World) :
  write_fault env (output_path env w) = None ->
  save_output env content url w =
    (Return (output_path env w),
     set_fs (<[output_path env w :=
                 File (TextFile (document url (clock env (S (tick w))) content))]>
               (fs w))
       (set_tick (S (S (tick w))) w)).
Proof.
  intros Hwrite. unfold output_path in *. cbn in Hwrite.
  unfold save_output, bind, datetime_now, open_w, write_file, f_write, ret. cbn.
  rewrite Hwrite. cbn.
  rewrite lookup_insert_eq. cbn. rewrite lookup_insert_eq. cbn.
  rewrite lookup_insert_eq. cbn.
  rewrite !insert_insert_eq. unfold document.
  rewrite append_nil, !append_assoc. reflexivity.
Qed.

(** C7, as stated, fails: a document saved in the same second as an
    earlier one takes its file name, and the earlier text is gone. *)
Lemma save_output_overwrites_existing :
  fs (Sample.world [] taken_output) !! [".";"output";"output_20240102_030405.md"]
    = Some (File (TextFile "first description")) /\
  exists w',
    save_output Sample.good "second description" "https://example.com/b.png"
                (Sample.world [] taken_output)
      = (Return [".";"output";"output_20240102_030405.md"], w') /\
    fs w' !! [".";"output";"output_20240102_030405.md"]
      = Some (File (TextFile
          (document "https://example.com/b.png" Sample.noon "second description"))) /\
    fs w' !! [".";"output";"output_20240102_030405.md"]
      <> Some (File (TextFile "first description")).
Proof.
  split; [reflexivity|].
  eexists. split; [apply save_output_run; reflexivity|].
  cbn [fs set_fs].
  change (output_path Sample.good (Sample.world [] taken_output))
    with [".";"output";"output_20240102_030405.md"].
  rewrite lookup_insert_eq. split; [reflexivity | discriminate].
Qed.

(** C7, amended. [save_output] opens the file named after the current
    second for writing whether it exists or not: afterwards that file holds
    the new document (an older file of the same name is replaced), and
    every file of another name is as it was. *)
Theorem save_output_replaces_same_name_only
  (env : Env) (content url : string) (w : World) :
  write_fault env (output_path env w) = None ->
  exists w',
    save_output env content url w = (Return (output_path env w), w') /\
    fs w' !! output_path env w
      = Some (File (TextFile (document url (clock env (S (tick w))) content))) /\
    forall q, q <> output_path env w -> fs w' !! q = fs w !! q.
Proof.
  intros Hwrite. eexists. split; [apply save_output_run; assumption|].
  cbn [fs set_fs]. split; [apply lookup_insert_eq|].
  intros q Hq. apply lookup_insert_ne. congruence.
Qed.

Lemma save_output_replaces_same_name_only_witness :
  write_fault Sample.good (output_path Sample.good (Sample.world [] taken_output))
    = None /\
  exists w',
    save_output Sample.good "second description" "https://example.com/b.png"
                (Sample.world [] taken_output)
      = (Return [".";"output";"output_20240102_030405.md"], w') /\
    fs w' !! [".";"output";"output_20240102_030405.md"]
      = Some (File (TextFile
          (document "https://example.com/b.png" Sample.noon "second description"))) /\
    forall q, q <> [".";"output";"output_20240102_030405.md"] ->
              fs w' !! q = taken_output !! q.
Proof.
  split; [reflexivity|].
  apply (save_output_replaces_same_name_only
           Sample.good "second description" "https://example.com/b.png"
           (Sample.world [] taken_output)).
  reflexivity.
Defined.

(** ** The Inference Adapter *)

Arguments decode : simpl never.

Lemma decode_skip_special (env : Env) (ids : list token) :
  decode env true ids = visible_text env ids.
Proof.
  unfold decode, visible_text. do 2 f_equal.
  apply list_filter_iff. intros t. cbn [andb].
  destruct (is_special env t); cbn; split; congruence.
Qed.

Lemma process_image_run
  (env : Env) (image_path : path) (w : World) (files : gmap path node)
  (inputs : model_inputs) (prompt row : list token)
  (prompts rows : list (list token)) :
  fs w = files ->
  prepared env image_path files inputs ->
  input_ids inputs = prompt :: prompts ->
  generate env inputs 2048 = inr (row :: rows) ->
  process_image env image_path w
    = (Return (visible_text env (drop (length prompt) row)), w).
Proof.
  intros <- (text & vision & Htext & Hvision & Hproc & Hcuda) Hids Hgen.
  unfold process_image, bind, call, check, get_fs, ret, raise. cbn.
  rewrite Htext. cbn. rewrite Hvision. cbn. rewrite Hproc. cbn.
  rewrite Hcuda. cbn. rewrite Hgen. cbn. rewrite Hids. cbn.
  rewrite decode_skip_special. reflexivity.
Qed.

(** C8. [process_image] asks the model for at most 2048 new tokens, drops
    from the row the model returns as many tokens as the prompt has, and
    decodes the rest without the special tokens: when the row is the
    prompt followed by a continuation, the text returned is the text of
    the continuation's ordinary tokens and nothing else. *)
Theorem process_image_returns_continuation
  (env : Env) (image_path : path) (w : World) (inputs : model_inputs)
  (prompt row : list token) (prompts rows : list (list token)) :
  prepared env image_path (fs w) inputs ->
  input_ids inputs = prompt :: prompts ->
  generate env inputs 2048 = inr (row :: rows) ->
  process_image env image_path w
    = (Return (visible_text env (drop (length prompt) row)), w) /\
  forall continuation, row = prompt ++ continuation ->
    process_image env image_path w = (Return (visible_text env continuation), w).
Proof.
  intros Hprep Hids Hgen.
  pose proof (process_image_run env image_path w (fs w) inputs prompt row
                prompts rows eq_refl Hprep Hids Hgen) as Hrun.
  split; [exact Hrun|].
  intros continuation ->. rewrite Hrun, drop_app_length. reflexivity.
Qed.

Lemma process_image_returns_continuation_witness :
  process_image Sample.good [".";"cache";"image_20240102_030405.jpg"]
                (Sample.world [] ∅)
    = (Return "# Overview!", Sample.world [] ∅).
Proof.
  destruct (process_image_returns_continuation
              Sample.good [".";"cache";"image_20240102_030405.jpg"]
              (Sample.world [] ∅)
              {| input_ids := [[1; 2; 3]]; pixel_values := [] |}
              [1; 2; 3] [1; 2; 3; 7; 0; 8] [] [])
    as [_ Hecho].
  - exists "chat", ([Sample.png], []). repeat split; reflexivity.
  - reflexivity.
  - reflexivity.
  - exact (Hecho [7; 0; 8] eq_refl).
Defined.

(** ** The Session Loop: leaving it *)

Lemma starts_space_lower (c : ascii) :
  starts_space (ascii_lower c) = starts_space c.
Proof. destruct c as [[] [] [] [] [] [] [] []]; reflexivity. Qed.

Lemma eq_ignore_case_lower (a b : string) :
  eq_ignore_case a b = true -> lower a = lower b /\ no_space a = no_space b.
Proof.
  revert b. induction a as [|x a IH]; intros [|y b] H; try discriminate H.
  - split; reflexivity.
  - cbn [eq_ignore_case] in H. apply andb_prop in H as [Hxy Hab].
    apply Ascii.eqb_eq in Hxy. destruct (IH b Hab) as [Hl Hs].
    cbn [lower no_space]. rewrite Hl, Hs, Hxy.
    rewrite <- (starts_space_lower x), <- (starts_space_lower y), Hxy.
    split; reflexivity.
Qed.

(** A byte that starts no white-space character is none, alone or with
    the bytes after it. *)
Lemma not_starts_space (a : ascii) :
  starts_space a = false ->
  is_space a = false /\
  (forall b, space2 a b = false) /\
  (forall b c, space3 a b c = false).
Proof.
  destruct a as [[] [] [] [] [] [] [] []]; intros H;
    try discriminate H; repeat split; intros; reflexivity.
Qed.

Lemma lstrip_no_space (s : string) : no_space s = true -> lstrip s = s.
Proof.
  destruct s as [|a r]; [reflexivity|]. cbn [no_space lstrip]. intros H.
  apply andb_prop in H as [Ha _]. apply negb_true_iff in Ha.
  destruct (not_starts_space a Ha) as (H1 & H2 & H3). rewrite H1.
  destruct r as [|b r2]; [reflexivity|]. rewrite H2.
  destruct r2 as [|c r3]; [reflexivity|]. rewrite H3. reflexivity.
Qed.

Lemma all_white_no_space (a : ascii) (r : string) :
  starts_space a = false -> all_white (String a r) = false.
Proof.
  intros Ha. destruct (not_starts_space a Ha) as (H1 & H2 & H3).
  cbn [all_white]. rewrite H1.
  destruct r as [|b r2]; [reflexivity|]. rewrite H2.
  destruct r2 as [|c r3]; [reflexivity|]. rewrite H3. reflexivity.
Qed.

Lemma rstrip_no_space (s : string) : no_space s = true -> rstrip s = s.
Proof.
  induction s as [|c r IH]; [reflexivity|]. cbn [no_space]. intros H.
  apply andb_prop in H as [Hc Hr]. apply negb_true_iff in Hc.
  cbn [rstrip]. rewrite (all_white_no_space c r Hc), (IH Hr). reflexivity.
Qed.

Lemma strip_no_space (s : string) : no_space s = true -> strip s = s.
Proof.
  intros H. unfold strip. rewrite (lstrip_no_space s H). apply rstrip_no_space, H.
Qed.

Lemma quit_keyword_plain (kw : string) :
  kw ∈ quit_keywords -> lower kw = kw /\ no_space kw = true.
Proof.
  unfold quit_keywords. intros H.
  repeat (apply elem_of_cons in H as [-> | H]; [split; reflexivity|]).
  apply elem_of_nil in H. contradiction.
Qed.

(** C6. A line that is [q], [quit] or [exit] in any letter case ends the
    loop: the iteration breaks after printing the farewell, no request is
    made and no file is touched. *)
Theorem quit_keyword_breaks_without_fetch
  (env : Env) (w : World) (line kw : string) (rest : list key) :
  stdin w = Line line :: rest ->
  kw ∈ quit_keywords ->
  eq_ignore_case line kw = true ->
  exists w',
    loop_body env w = (Break, w') /\
    http_log w' = http_log w /\
    fs w' = fs w /\
    stdout w' = stdout w ++ [nl +:+ "Image URL > "; "Exiting..."] /\
    forall fuel, session env (S fuel) w = (true, w').
Proof.
  intros Hin Hkw Hci.
  destruct (eq_ignore_case_lower line kw Hci) as [Hlow Hsp].
  destruct (quit_keyword_plain kw Hkw) as [Hkwlow Hkwsp].
  rewrite Hkwlow in Hlow. rewrite Hkwsp in Hsp.
  assert (Hbody : loop_body env w =
    (Break, set_stdout ((stdout w ++ [nl +:+ "Image URL > "]) ++ ["Exiting..."])
              (set_stdin rest w))).
  { unfold loop_body, try_body, bind, input. rewrite Hin.
    rewrite (strip_no_space line Hsp), Hlow.
    rewrite bool_decide_eq_true_2 by exact Hkw. reflexivity. }
  eexists. split; [exact Hbody|]. cbn.
  split; [reflexivity|]. split; [reflexivity|].
  split; [rewrite <- app_assoc; reflexivity|].
  intros fuel. cbn [session]. rewrite Hbody. reflexivity.
Qed.

Lemma quit_keyword_breaks_without_fetch_witness :
  eq_ignore_case "EXIT" "exit" = true /\
  exists w',
    loop_body Sample.good (Sample.world [Line "EXIT"] ∅) = (Break, w') /\
    http_log w' = [] /\
    fs w' = ∅.
Proof.
  split; [reflexivity|].
  destruct (quit_keyword_breaks_without_fetch
              Sample.good (Sample.world [Line "EXIT"] ∅) "EXIT" "exit" []
              eq_refl) as (w' & Hbody & Hlog & Hfs & _).
  - unfold quit_keywords. apply elem_of_cons. right.
    apply elem_of_cons. right. apply elem_of_cons. left. reflexivity.
  - reflexivity.
  - exists w'. split; [exact Hbody|]. split; [exact Hlog | exact Hfs].
Defined.

(** ** The Session Loop: faults *)

Lemma never_breaks_ret : never_breaks (ret Continue).
Proof. intros w c w' H. unfold ret in H. congruence. Qed.

Lemma never_breaks_bind {A} (m : M A) (k : A -> M control) :
  (forall a, never_breaks (k a)) -> never_breaks (bind m k).
Proof.
  intros Hk w c w' H. unfold bind in H.
  destruct (m w) as [[a|e] w1]; [exact (Hk a _ _ _ H) | discriminate H].
Qed.

Create HintDb loop.
#[local] Hint Resolve never_breaks_ret : loop.

Lemma handle_url_never_breaks (env : Env) (url : string) :
  never_breaks (handle_url env url).
Proof.
  unfold handle_url.
  apply never_breaks_bind; intros _.
  apply never_breaks_bind; intros fetched.
  destruct (fetched.1) as [image_path|]; [|auto with loop].
  destruct (path_is_empty env image_path); [auto with loop|].
  repeat (apply never_breaks_bind; intros ?).
  auto with loop.
Qed.

(** The iteration returns [Break] only on a quit keyword. *)
Lemma try_body_break (env : Env) (w w' : World) :
  try_body env w = (Return Break, w') ->
  exists line rest,
    stdin w = Line line :: rest /\ lower (strip line) ∈ quit_keywords.
Proof.
  unfold try_body, bind, input. intros H.
  destruct (stdin w) as [|[line|] rest]; try discriminate H.
  exists line, rest. split; [reflexivity|].
  destruct (bool_decide (lower (strip line) ∈ quit_keywords)) eqn:Hq.
  - apply bool_decide_eq_true_1 in Hq. exact Hq.
  - destruct (string_eqb (strip line) ""); [discriminate H|].
    apply handle_url_never_breaks in H. discriminate H.
Qed.

(** C2. A fault raised inside an iteration is caught by the handler of
    the loop: its message is printed and the iteration ends with
    [Continue], so the loop asks for the next input.  An iteration ends
    the loop only when the operator typed a quit keyword or interrupted. *)
Theorem loop_catches_every_fault (env : Env) (w : World) :
  (forall msg w1,
     try_body env w = (Raise (Exception msg), w1) ->
     loop_body env w
       = (Continue,
          set_stdout (stdout w1 ++ ["An unexpected error occurred: " +:+ msg]) w1) /\
     forall fuel,
       session env (S fuel) w
         = session env fuel
             (set_stdout (stdout w1 ++ ["An unexpected error occurred: " +:+ msg]) w1)) /\
  (forall w',
     loop_body env w = (Break, w') ->
     (exists line rest,
        stdin w = Line line :: rest /\ lower (strip line) ∈ quit_keywords) \/
     (exists w1, try_body env w = (Raise KeyboardInterrupt, w1))).
Proof.
  split.
  - intros msg w1 H.
    assert (Hbody : loop_body env w
       = (Continue,
          set_stdout (stdout w1 ++ ["An unexpected error occurred: " +:+ msg]) w1)).
    { unfold loop_body. rewrite H. reflexivity. }
    split; [exact Hbody|]. intros fuel. cbn [session]. rewrite Hbody. reflexivity.
  - intros w' H. unfold loop_body in H.
    destruct (try_body env w) as [[c|[msg|]] w1] eqn:Hbody.
    + injection H as -> ->. left. exact (try_body_break env w w' Hbody).
    + discriminate H.
    + right. exists w1. reflexivity.
Qed.

Lemma process_image_generation_fault
  (env : Env) (image_path : path) (w : World) (files : gmap path node)
  (inputs : model_inputs) (e : exn) :
  fs w = files ->
  prepared env image_path files inputs ->
  generate env inputs 2048 = inl e ->
  process_image env image_path w = (Raise e, w).
Proof.
  intros <- (text & vision & Htext & Hvision & Hproc & Hcuda) Hgen.
  unfold process_image, bind, call, check, get_fs, ret, raise. cbn.
  rewrite Htext. cbn. rewrite Hvision. cbn. rewrite Hproc. cbn.
  rewrite Hcuda. cbn. rewrite Hgen. reflexivity.
Qed.

(** What an iteration does when the image was fetched and the model then
    faults: the exception leaves the [try] block before the clean-up, with
    the image file still in the scratch directory. *)
Lemma handle_url_inference_fault
  (env : Env) (url : string) (w : World) (img : image)
  (inputs : model_inputs) (e : exn) :
  fetch_decodes env url img ->
  write_fault env (cache_path env w) = None ->
  prepared env (cache_path env w)
    (<[cache_path env w := File (ImageFile (normalized env img))]> (fs w)) inputs ->
  generate env inputs 2048 = inl e ->
  exists w1,
    handle_url env url w = (Raise e, w1) /\
    fs w1 = <[cache_path env w := File (ImageFile (normalized env img))]> (fs w) /\
    stdout w1 = stdout w ++
      ["Downloading image..."; "Processing image (this may take a few seconds)..."].
Proof.
  intros Hok Hwrite Hprep Hgen.
  unfold handle_url. unfold bind at 1. unfold print at 1. unfold bind at 1.
  rewrite (download_image_success env url
             (set_stdout (stdout w ++ ["Downloading image..."]) w) img Hok Hwrite).
  cbn [fst]. unfold cache_path at 1. rewrite path_str_cache_nonempty.
  unfold bind at 1. unfold print at 1. unfold bind at 1. unfold time_now at 1.
  unfold bind at 1.
  rewrite process_image_generation_fault
    with (files := <[cache_path env w := File (ImageFile (normalized env img))]> (fs w))
         (inputs := inputs) (e := e);
    [ | reflexivity | exact Hprep | exact Hgen ].
  eexists. split; [reflexivity|]. cbn. split; [reflexivity|].
  rewrite <- app_assoc. reflexivity.
Qed.

Lemma loop_catches_every_fault_witness :
  exists w1,
    try_body Sample.faulty_model
             (Sample.world [Line "https://example.com/shot.png"; Line "q"] ∅)
      = (Raise (Exception "CUDA out of memory"), w1) /\
    loop_body Sample.faulty_model
              (Sample.world [Line "https://example.com/shot.png"; Line "q"] ∅)
      = (Continue,
         set_stdout
           (stdout w1 ++ ["An unexpected error occurred: CUDA out of memory"]) w1) /\
    stdin w1 = [Line "q"].
Proof.
  exists (try_body Sample.faulty_model
            (Sample.world [Line "https://example.com/shot.png"; Line "q"] ∅)).2.
  assert (Hraise :
    try_body Sample.faulty_model
             (Sample.world [Line "https://example.com/shot.png"; Line "q"] ∅)
    = (Raise (Exception "CUDA out of memory"),
       (try_body Sample.faulty_model
          (Sample.world [Line "https://example.com/shot.png"; Line "q"] ∅)).2)).
  { vm_compute. reflexivity. }
  split; [exact Hraise|]. split.
  - destruct (loop_catches_every_fault Sample.faulty_model
                (Sample.world [Line "https://example.com/shot.png"; Line "q"] ∅))
      as [Hcaught _].
    exact (proj1 (Hcaught _ _ Hraise)).
  - vm_compute. reflexivity.
Defined.

(** ** The Session Loop: the scratch directory *)

(** C1 fails on the code.  The operator enters the URL of an image that
    downloads and decodes, and the model faults during generation: the
    fault is reported, the iteration ends, and the image downloaded in it
    is still in the scratch directory when the next prompt is shown.  On
    the machine whose model does not fault the same input leaves the
    scratch directory without files. *)
Theorem inference_fault_leaves_cached_image :
  (exists w',
     loop_body Sample.faulty_model
               (Sample.world [Line "https://example.com/shot.png"] ∅)
       = (Continue, w') /\
     stdout w' =
       [ nl +:+ "Image URL > ";
         "Downloading image...";
         "Processing image (this may take a few seconds)...";
         "An unexpected error occurred: CUDA out of memory" ] /\
     fs w' !! [".";"cache";"image_20240102_030405.jpg"]
       = Some (File (ImageFile {| mode := "RGB"; pixels := [10; 20; 30]%Z |})) /\
     filter (fun f => isfile (fs w') (os_path_join CACHE_DIR f) = true)
            (listdir CACHE_DIR (fs w'))
       = ["image_20240102_030405.jpg"]) /\
  (exists w',
     loop_body Sample.good
               (Sample.world [Line "https://example.com/shot.png"] ∅)
       = (Continue, w') /\
     filter (fun f => isfile (fs w') (os_path_join CACHE_DIR f) = true)
            (listdir CACHE_DIR (fs w'))
       = []).
Proof.
  split.
  - exists (loop_body Sample.faulty_model
              (Sample.world [Line "https://example.com/shot.png"] ∅)).2.
    split; [vm_compute; reflexivity|].
    split; [vm_compute; reflexivity|].
    split; vm_compute; reflexivity.
  - exists (loop_body Sample.good
              (Sample.world [Line "https://example.com/shot.png"] ∅)).2.
    split; vm_compute; reflexivity.
Qed.

(** X20. The same for every machine: an inference fault ends the
    iteration with the downloaded file still on disk. *)
Lemma loop_body_inference_fault
  (env : Env) (w : World) (line : string) (rest : list key) (img : image)
  (inputs : model_inputs) (msg : string) :
  stdin w = Line line :: rest ->
  lower (strip line) ∉ quit_keywords ->
  strip line <> "" ->
  fetch_decodes env (strip line) img ->
  write_fault env (cache_path env w) = None ->
  prepared env (cache_path env w)
    (<[cache_path env w := File (ImageFile (normalized env img))]> (fs w)) inputs ->
  generate env inputs 2048 = inl (Exception msg) ->
  exists w',
    loop_body env w = (Continue, w') /\
    fs w' !! cache_path env w = Some (File (ImageFile (normalized env img))) /\
    last (stdout w') = Some ("An unexpected error occurred: " +:+ msg).
Proof.
  intros Hin Hquit Hurl Hok Hwrite Hprep Hgen.
  destruct (handle_url_inference_fault env (strip line)
              (set_stdin rest (set_stdout (stdout w ++ [nl +:+ "Image URL > "]) w))
              img inputs (Exception msg) Hok Hwrite Hprep Hgen)
    as (w1 & Hrun & Hfs & _).
  unfold loop_body, try_body, bind, input. rewrite Hin.
  rewrite bool_decide_eq_false_2 by exact Hquit.
  unfold string_eqb. rewrite bool_decide_eq_false_2 by exact Hurl.
  rewrite Hrun. eexists. split; [reflexivity|].
  cbn [fs set_stdout stdout]. rewrite Hfs. cbn [fs set_stdin set_stdout].
  split; [apply lookup_insert_eq | apply last_snoc].
Qed.

(** *** The sweep of a successful iteration *)

Lemma isfile_delete (m : gmap path node) (p q : path) :
  isfile (delete p m) q = true <-> isfile m q = true /\ q <> p.
Proof.
  unfold isfile. destruct (decide (q = p)) as [->|Hne].
  - rewrite lookup_delete_eq. split; [discriminate | intros [_ H]; congruence].
  - rewrite lookup_delete_ne by congruence. split; [auto | intros [H _]; exact H].
Qed.

Lemma remove_each_spec (env : Env) (l : list string) (w : World) :
  (forall p, remove_fault env p = None) ->
  exists w',
    remove_each env l w = (Return tt, w') /\
    forall q, isfile (fs w') q = true <->
              isfile (fs w) q = true /\
              forall f, f ∈ l -> q <> os_path_join CACHE_DIR f.
Proof.
  intros Hrm. revert w. induction l as [|f l IH]; intros w.
  - exists w. split; [reflexivity|]. intros q. split; [|intros [H _]; exact H].
    intros H. split; [exact H|]. intros f Hf. apply elem_of_nil in Hf. contradiction.
  - cbn [remove_each]. unfold bind, try_except, os_remove.
    rewrite Hrm.
    destruct (fs w !! os_path_join CACHE_DIR f) as [[c|]|] eqn:Hp.
    + destruct (IH (set_fs (delete (os_path_join CACHE_DIR f) (fs w)) w))
        as (w' & Hrun & Hspec).
      exists w'. split; [exact Hrun|]. intros q. rewrite Hspec. cbn [fs set_fs].
      rewrite isfile_delete. split.
      * intros [[Hq Hne] Hl]. split; [exact Hq|]. intros g Hg.
        apply elem_of_cons in Hg as [->|Hg]; [exact Hne | exact (Hl g Hg)].
      * intros [Hq Hl]. split; [split; [exact Hq|]|].
        -- apply Hl. apply elem_of_cons. left. reflexivity.
        -- intros g Hg. apply Hl. apply elem_of_cons. right. exact Hg.
    + destruct (IH w) as (w' & Hrun & Hspec). unfold ret.
      exists w'. split; [exact Hrun|]. intros q. rewrite Hspec. split.
      * intros [Hq Hl]. split; [exact Hq|]. intros g Hg.
        apply elem_of_cons in Hg as [->|Hg]; [|exact (Hl g Hg)].
        intros ->. unfold isfile in Hq. rewrite Hp in Hq. discriminate Hq.
      * intros [Hq Hl]. split; [exact Hq|].
        intros g Hg. apply Hl. apply elem_of_cons. right. exact Hg.
    + destruct (IH w) as (w' & Hrun & Hspec). unfold ret.
      exists w'. split; [exact Hrun|]. intros q. rewrite Hspec. split.
      * intros [Hq Hl]. split; [exact Hq|]. intros g Hg.
        apply elem_of_cons in Hg as [->|Hg]; [|exact (Hl g Hg)].
        intros ->. unfold isfile in Hq. rewrite Hp in Hq. discriminate Hq.
      * intros [Hq Hl]. split; [exact Hq|].
        intros g Hg. apply Hl. apply elem_of_cons. right. exact Hg.
Qed.

Lemma listdir_complete (m : gmap path node) (d : path) (f : string) :
  isfile m (os_path_join d f) = true ->
  f ∈ filter (fun g => isfile m (os_path_join d g) = true) (listdir d m).
Proof.
  intros H. apply list_elem_of_filter. split; [exact H|].
  unfold listdir. apply list_elem_of_omap.
  unfold isfile in H. destruct (m !! os_path_join d f) as [x|] eqn:Hx; [|discriminate H].
  exists (os_path_join d f, x). split.
  - apply elem_of_map_to_list. exact Hx.
  - apply entry_of_join.
Qed.

(** With no removal fault, the clean-up of a successful iteration leaves
    no file in the scratch directory. *)
Lemma cleanup_clears_cache (env : Env) (image_path : path) (w : World) (c : content) :
  (forall p, remove_fault env p = None) ->
  fs w !! image_path = Some (File c) ->
  path_is_empty env image_path = false ->
  exists w',
    cleanup env image_path w = (Return tt, w') /\
    forall f, isfile (fs w') (os_path_join CACHE_DIR f) = false.
Proof.
  intros Hrm Hfile Hne.
  unfold cleanup, try_except. unfold bind at 1. rewrite Hne. cbn [negb].
  unfold os_path_exists.
  rewrite bool_decide_eq_true_2 by (rewrite Hfile; eauto).
  unfold bind at 1. unfold os_remove.
  rewrite Hfile, Hrm. unfold bind at 1. unfold get_fs. cbn [fs set_fs].
  set (m := delete image_path (fs w)).
  set (w1 := set_fs m w).
  pose proof (listdir_complete m CACHE_DIR) as Hall.
  destruct (filter _ (listdir CACHE_DIR m)) as [|f0 l] eqn:Hfiles.
  - eexists. split; [reflexivity|]. intros f. subst w1.
    cbn [fs set_fs set_stdout].
    destruct (isfile m (os_path_join CACHE_DIR f)) eqn:Hf; [|reflexivity].
    apply Hall in Hf. apply elem_of_nil in Hf. contradiction.
  - destruct (remove_each_spec env (f0 :: l) w1 Hrm) as (w' & Hrun & Hspec).
    unfold bind. rewrite Hrun. eexists. split; [reflexivity|].
    intros f. cbn [fs set_stdout].
    destruct (isfile (fs w') (os_path_join CACHE_DIR f)) eqn:Hf; [|reflexivity].
    apply Hspec in Hf as [Hf Hl]. cbn [fs w1 set_fs] in Hf.
    exfalso. exact (Hl f (Hall f Hf) eq_refl).
Qed.

(** An iteration in which the fetch, the inference and the writing succeed
    and no removal faults ends with a scratch directory without files. *)
Lemma loop_body_success_clears_cache
  (env : Env) (w : World) (line : string) (rest : list key) (img : image)
  (inputs : model_inputs) (prompt row : list token)
  (prompts rows : list (list token)) :
  stdin w = Line line :: rest ->
  lower (strip line) ∉ quit_keywords ->
  strip line <> "" ->
  fetch_decodes env (strip line) img ->
  (forall p, write_fault env p = None) ->
  (forall p, remove_fault env p = None) ->
  prepared env (cache_path env w)
    (<[cache_path env w := File (ImageFile (normalized env img))]> (fs w)) inputs ->
  input_ids inputs = prompt :: prompts ->
  generate env inputs 2048 = inr (row :: rows) ->
  exists w',
    loop_body env w = (Continue, w') /\
    forall f, isfile (fs w') (os_path_join CACHE_DIR f) = false.
Proof.
  intros Hin Hquit Hurl Hok Hwrite Hrm Hprep Hids Hgen.
  unfold loop_body, try_body, bind, input. rewrite Hin.
  rewrite bool_decide_eq_false_2 by exact Hquit.
  unfold string_eqb. rewrite bool_decide_eq_false_2 by exact Hurl.
  unfold handle_url. unfold bind at 1. unfold print at 1. unfold bind at 1.
  set (w0 := set_stdout _ (set_stdin rest _)).
  rewrite (download_image_success env (strip line) w0 img Hok (Hwrite _)).
  cbn [fst]. unfold cache_path at 1. rewrite path_str_cache_nonempty.
  unfold bind at 1. unfold print at 1. unfold bind at 1. unfold time_now at 1.
  unfold bind at 1.
  rewrite process_image_run
    with (files := <[cache_path env w := File (ImageFile (normalized env img))]> (fs w))
         (inputs := inputs) (prompt := prompt) (row := row)
         (prompts := prompts) (rows := rows);
    [ | reflexivity | exact Hprep | exact Hids | exact Hgen ].
  unfold bind at 1. unfold time_now at 1. unfold bind at 1.
  rewrite save_output_run by apply Hwrite.
  do 4 (unfold bind at 1; unfold print at 1).
  unfold bind at 1.
  match goal with
  | |- context [cleanup env ?p ?wc] =>
      destruct (cleanup_clears_cache env p wc (ImageFile (normalized env img)) Hrm)
        as (w' & Hclean & Hfiles)
  end.
  - cbn [fs set_fs set_stdout set_tick set_http_log].
    rewrite lookup_insert_ne by (unfold output_path, cache_path, os_path_join,
                                   OUTPUT_DIR, CACHE_DIR; cbn; congruence).
    apply lookup_insert_eq.
  - apply path_str_cache_nonempty.
  - rewrite Hclean. unfold ret. exists w'. split; [reflexivity | exact Hfiles].
Qed.

(** * Further properties of the program *)

(** ** Startup *)

Lemma os_makedirs_run (d : path) (w : World) :
  (forall c, fs w !! d <> Some (File c)) ->
  os_makedirs d w = (Return tt, set_fs (<[d := Directory]> (fs w)) w).
Proof.
  intros Hfree. unfold os_makedirs.
  destruct (fs w !! d) as [[c|]|] eqn:Hd.
  - exfalso. exact (Hfree c eq_refl).
  - rewrite insert_id by exact Hd. destruct w; reflexivity.
  - reflexivity.
Qed.

Lemma setup_directories_run (w : World) :
  directories_free w ->
  setup_directories w =
    (Return tt,
     set_fs (<[OUTPUT_DIR := Directory]> (<[CACHE_DIR := Directory]> (fs w))) w).
Proof.
  intros [Hcache Hout]. unfold setup_directories, bind.
  rewrite (os_makedirs_run CACHE_DIR w Hcache).
  rewrite os_makedirs_run.
  - reflexivity.
  - intros c. cbn [fs set_fs].
    rewrite lookup_insert_ne by discriminate. apply Hout.
Qed.

(** X1. When no regular file is in the way, [setup_directories] makes
    both working directories exist, leaves every other path as it was, and
    is idempotent: calling it again changes nothing. *)
Theorem setup_directories_idempotent (w : World) :
  directories_free w ->
  exists w',
    setup_directories w = (Return tt, w') /\
    fs w' !! CACHE_DIR = Some Directory /\
    fs w' !! OUTPUT_DIR = Some Directory /\
    (forall q, q <> CACHE_DIR -> q <> OUTPUT_DIR -> fs w' !! q = fs w !! q) /\
    setup_directories w' = (Return tt, w').
Proof.
  intros Hfree. eexists. split; [apply setup_directories_run, Hfree|].
  cbn [fs set_fs]. split.
  { rewrite lookup_insert_ne by discriminate. apply lookup_insert_eq. }
  split; [apply lookup_insert_eq|]. split.
  { intros q Hc Ho. rewrite !lookup_insert_ne by congruence. reflexivity. }
  unfold setup_directories, bind, os_makedirs. cbn [fs set_fs].
  rewrite lookup_insert_ne by discriminate. rewrite lookup_insert_eq.
  cbn [fs set_fs]. rewrite lookup_insert_eq. reflexivity.
Qed.

Lemma setup_directories_idempotent_witness :
  directories_free (Sample.world [] taken_output) /\
  exists w',
    setup_directories (Sample.world [] taken_output) = (Return tt, w') /\
    fs w' !! CACHE_DIR = Some Directory /\
    fs w' !! OUTPUT_DIR = Some Directory /\
    fs w' !! [".";"output";"output_20240102_030405.md"]
      = Some (File (TextFile "first description")) /\
    setup_directories w' = (Return tt, w').
Proof.
  assert (Hfree : directories_free (Sample.world [] taken_output)).
  { split; intros c; vm_compute; discriminate. }
  split; [exact Hfree|].
  destruct (setup_directories_idempotent (Sample.world [] taken_output) Hfree)
    as (w' & Hrun & Hc & Ho & Hother & Hagain).
  exists w'. split; [exact Hrun|]. split; [exact Hc|]. split; [exact Ho|].
  split; [|exact Hagain].
  rewrite Hother by discriminate. reflexivity.
Defined.

(** X2. A regular file named like the scratch directory stops the program
    at startup: [os.makedirs] raises, nothing catches it, and [main] ends
    with that exception before the model is loaded or a prompt is shown;
    the file system is as it was. *)
Theorem main_stops_when_directory_name_is_a_file
  (env : Env) (fuel : nat) (w : World) (c : content) :
  cuda_is_available env = true ->
  fs w !! CACHE_DIR = Some (File c) ->
  exists msg,
    main env fuel w = (Uncaught (Exception msg), w).
Proof.
  intros Hcuda Hfile. exists "File exists".
  unfold main, check_cuda_and_restart. rewrite Hcuda. cbn [negb]. unfold ret.
  unfold setup_directories, bind, os_makedirs. rewrite Hfile. reflexivity.
Qed.

Lemma main_stops_when_directory_name_is_a_file_witness :
  exists msg,
    main Sample.good 3 (Sample.world [Line "q"] blocked_disk)
      = (Uncaught (Exception msg), Sample.world [Line "q"] blocked_disk).
Proof.
  apply (main_stops_when_directory_name_is_a_file
           Sample.good 3 (Sample.world [Line "q"] blocked_disk) (TextFile ""));
    reflexivity.
Defined.

Lemma check_cuda_with_gpu (env : Env) (w : World) :
  cuda_is_available env = true ->
  check_cuda_and_restart env w = (Return Proceed, w).
Proof. intros H. unfold check_cuda_and_restart. rewrite H. reflexivity. Qed.

(** X3. A fault while loading the model is fatal: [load_model] prints the
    error and the remediation hint and exits with status 1, so [main] ends
    before the first prompt, without reading input or making a request. *)
Theorem model_load_fault_exits_with_1
  (env : Env) (fuel : nat) (w : World) (msg : string) :
  cuda_is_available env = true ->
  directories_free w ->
  from_pretrained env = Some (Exception msg) ->
  exists w',
    main env fuel w = (Exited 1, w') /\
    stdin w' = stdin w /\
    http_log w' = http_log w /\
    stdout w' = stdout w ++
      [ "Loading model: " +:+ MODEL_ID +:+ "...";
        "Using cache directory: " +:+ HF_CACHE_DIR;
        "This may take a moment depending on your internet connection and disk speed.";
        "Error loading model: " +:+ msg;
        "Ensure you have installed the requirements: pip install -r requirements.txt" ].
Proof.
  intros Hcuda Hfree Hload. unfold main.
  rewrite (check_cuda_with_gpu env w Hcuda).
  rewrite (setup_directories_run w Hfree).
  unfold load_model, try_except, bind, print, check, raise, ret.
  rewrite Hload. cbn.
  eexists. split; [reflexivity|]. cbn.
  split; [reflexivity|]. split; [reflexivity|].
  rewrite <- !app_assoc. reflexivity.
Qed.

Lemma model_load_fault_exits_with_1_witness :
  exists w',
    main no_model 5 (Sample.world [Line "https://example.com/shot.png"] ∅)
      = (Exited 1, w') /\
    stdin w' = [Line "https://example.com/shot.png"] /\
    http_log w' = [].
Proof.
  destruct (model_load_fault_exits_with_1
              no_model 5 (Sample.world [Line "https://example.com/shot.png"] ∅)
              "out of memory" eq_refl)
    as (w' & Hmain & Hin & Hlog & _).
  - split; intros c; vm_compute; discriminate.
  - reflexivity.
  - exists w'. split; [exact Hmain|]. split; [exact Hin | exact Hlog].
Defined.

(** X4. Without a GPU and with the virtual environment in place, [main]
    only relaunches: it ends with status 0 once the child process has
    returned (with the exception of [subprocess.run] when that raises),
    and it has not created a directory, read input or made a request. *)
Theorem main_relaunch_does_nothing_else (env : Env) (fuel : nat) (w : World) :
  cuda_is_available env = false ->
  is_Some (fs w !! venv_python env) ->
  exists w',
    main env fuel w =
      (match subprocess_run env (relaunch_command env) with
       | None => Exited 0
       | Some e => Uncaught e
       end, w') /\
    spawned w' = spawned w ++ [relaunch_command env] /\
    fs w' = fs w /\
    stdin w' = stdin w /\
    http_log w' = http_log w.
Proof.
  intros Hcuda Hvenv. unfold main, check_cuda_and_restart.
  rewrite Hcuda. cbn [negb]. fold (venv_python env).
  unfold bind, print, os_path_exists, ret. cbn [fs set_stdout].
  rewrite bool_decide_eq_true_2 by exact Hvenv.
  fold (relaunch_command env).
  destruct (subprocess_run env (relaunch_command env)) as [e|];
    eexists; (split; [reflexivity|]); cbn; repeat split; reflexivity.
Qed.

Lemma main_relaunch_does_nothing_else_witness :
  exists w',
    main Sample.no_gpu 5 (Sample.world [Line "q"] venv_disk) = (Exited 0, w') /\
    spawned w' = [["C:/image-processor/.venv/Scripts/python.exe"; "main.py"]] /\
    fs w' = venv_disk /\
    stdin w' = [Line "q"].
Proof.
  destruct (main_relaunch_does_nothing_else
              Sample.no_gpu 5 (Sample.world [Line "q"] venv_disk) eq_refl)
    as (w' & Hmain & Hspawn & Hfs & Hin & _).
  - vm_compute. eexists. reflexivity.
  - exists w'. split; [exact Hmain|]. split; [exact Hspawn|].
    split; [exact Hfs | exact Hin].
Defined.

(** ** The Session Loop: inputs that fetch nothing *)

Lemma lstrip_all_space (s : string) : all_space s = true -> lstrip s = "".
Proof.
  induction s as [|c r IH]; [reflexivity|]. cbn [all_space]. intros H.
  apply andb_prop in H as [Hc Hr]. cbn [lstrip]. rewrite Hc. exact (IH Hr).
Qed.

Lemma strip_all_space (s : string) : all_space s = true -> strip s = "".
Proof. intros H. unfold strip. rewrite (lstrip_all_space s H). reflexivity. Qed.

Lemma loop_body_quit (env : Env) (w : World) (line : string) (rest : list key) :
  stdin w = Line line :: rest ->
  lower (strip line) ∈ quit_keywords ->
  loop_body env w =
    (Break, set_stdout ((stdout w ++ [PROMPT]) ++ ["Exiting..."]) (set_stdin rest w)).
Proof.
  intros Hin Hq. unfold loop_body, try_body, bind, input. rewrite Hin.
  rewrite bool_decide_eq_true_2 by exact Hq. reflexivity.
Qed.

(** X5. An empty line, or a line of white space only, is ignored: the
    iteration writes the prompt, consumes the line and continues; no
    request is made and no file is touched. *)
Theorem blank_line_is_ignored
  (env : Env) (w : World) (line : string) (rest : list key) :
  stdin w = Line line :: rest ->
  all_space line = true ->
  loop_body env w
    = (Continue, set_stdin rest (set_stdout (stdout w ++ [PROMPT]) w)).
Proof.
  intros Hin Hblank. unfold loop_body, try_body, bind, input. rewrite Hin.
  rewrite (strip_all_space line Hblank). reflexivity.
Qed.

Lemma blank_line_is_ignored_witness :
  all_space "   " = true /\
  loop_body Sample.good (Sample.world [Line "   "; Line "q"] taken_output)
    = (Continue,
       {| stdin := [Line "q"]; stdout := [PROMPT]; fs := taken_output;
          http_log := []; spawned := []; tick := 0 |}).
Proof.
  split; [reflexivity|].
  apply (blank_line_is_ignored
           Sample.good (Sample.world [Line "   "; Line "q"] taken_output)
           "   " [Line "q"]); reflexivity.
Defined.

Lemma download_image_on_failure (env : Env) (url msg : string) (w : World) :
  fetch_fails env url msg ->
  exists w',
    download_image env url w = (Return (None, None), w') /\
    fs w' = fs w /\
    stdin w' = stdin w /\
    http_log w' = http_log w ++ [url] /\
    stdout w' = stdout w ++ ["Error downloading image: " +:+ msg].
Proof.
  intros [Hget | [(r & Hget & Hstatus) | (r & Hget & Hstatus & Hopen)]];
    run_fetch; rewrite Hget; cbn.
  - eexists. split; [reflexivity|]. cbn. repeat split; reflexivity.
  - rewrite Hstatus. cbn. eexists. split; [reflexivity|]. cbn.
    repeat split; reflexivity.
  - rewrite Hstatus. cbn. rewrite Hopen. cbn.
    eexists. split; [reflexivity|]. cbn. repeat split; reflexivity.
Qed.

(** X6. When the fetch fails the iteration is abandoned: the error is
    printed, the loop continues, the file system is as it was (no output
    document, no scratch file), and the one request made was for the
    stripped input. *)
Theorem failed_fetch_abandons_iteration
  (env : Env) (w : World) (line msg : string) (rest : list key) :
  stdin w = Line line :: rest ->
  lower (strip line) ∉ quit_keywords ->
  strip line <> "" ->
  fetch_fails env (strip line) msg ->
  exists w',
    loop_body env w = (Continue, w') /\
    fs w' = fs w /\
    stdin w' = rest /\
    http_log w' = http_log w ++ [strip line] /\
    stdout w' = stdout w ++
      [PROMPT; "Downloading image..."; "Error downloading image: " +:+ msg].
Proof.
  intros Hin Hquit Hurl Hfail.
  unfold loop_body, try_body, bind, input. rewrite Hin.
  rewrite bool_decide_eq_false_2 by exact Hquit.
  unfold string_eqb. rewrite bool_decide_eq_false_2 by exact Hurl.
  unfold handle_url. unfold bind at 1. unfold print at 1. unfold bind at 1.
  match goal with
  | |- context [download_image env (strip line) ?w0] =>
      destruct (download_image_on_failure env (strip line) msg w0 Hfail)
        as (w1 & Hrun & Hfs & Hstdin & Hlog & Hout)
  end.
  rewrite Hrun. cbn [fst]. unfold ret. exists w1.
  split; [reflexivity|]. rewrite Hfs, Hstdin, Hlog, Hout. cbn.
  repeat split; try reflexivity.
  rewrite <- !app_assoc. reflexivity.
Qed.

Lemma failed_fetch_abandons_iteration_witness :
  exists w',
    loop_body Sample.no_gpu (Sample.world [Line " not-a-url "] taken_output)
      = (Continue, w') /\
    fs w' = taken_output /\
    http_log w' = ["not-a-url"].
Proof.
  destruct (failed_fetch_abandons_iteration
              Sample.no_gpu (Sample.world [Line " not-a-url "] taken_output)
              " not-a-url " "Connection refused" [] eq_refl)
    as (w' & Hrun & Hfs & _ & Hlog & _).
  - vm_compute. intros H. repeat (apply elem_of_cons in H as [H|H]; [discriminate H|]).
    apply elem_of_nil in H. exact H.
  - vm_compute. discriminate.
  - left. reflexivity.
  - exists w'. split; [exact Hrun|]. split; [exact Hfs | exact Hlog].
Defined.

(** ** The Session Loop: end of input and interrupts *)

Lemma loop_body_at_eof (env : Env) (w : World) :
  stdin w = [] ->
  loop_body env w
    = (Continue, set_stdout ((stdout w ++ [PROMPT]) ++ [EOF_REPORT]) w).
Proof.
  intros Hin. unfold loop_body, try_body, bind, input. rewrite Hin.
  destruct w; reflexivity.
Qed.

(** X7. At the end of standard input the loop does not end: every
    iteration writes the prompt, reports the [EOFError] and continues, so
    after any number of iterations the loop is still running and nothing
    but the output has changed. *)
Theorem loop_spins_at_end_of_input (env : Env) (w : World) (fuel : nat) :
  stdin w = [] ->
  session env fuel w
    = (false,
       set_stdout (stdout w ++ concat (replicate fuel [PROMPT; EOF_REPORT])) w).
Proof.
  revert w. induction fuel as [|fuel IH]; intros w Hin.
  - cbn. rewrite app_nil_r. destruct w; reflexivity.
  - cbn [session]. rewrite (loop_body_at_eof env w Hin).
    rewrite IH by exact Hin. f_equal.
    unfold set_stdout. cbn [stdin stdout fs http_log spawned tick].
    f_equal. cbn [concat replicate]. rewrite <- !app_assoc. reflexivity.
Qed.

Lemma loop_spins_at_end_of_input_witness :
  session Sample.good 2 (Sample.world [] ∅)
    = (false,
       {| stdin := []; stdout := [PROMPT; EOF_REPORT; PROMPT; EOF_REPORT];
          fs := ∅; http_log := []; spawned := []; tick := 0 |}).
Proof.
  exact (loop_spins_at_end_of_input Sample.good (Sample.world [] ∅) 2 eq_refl).
Defined.

(** X8. An interrupt during the download is not taken for a failed fetch:
    it passes the [except Exception] of [download_image] and of the loop,
    the loop prints its farewell and ends, and no file was written. *)
Theorem interrupt_during_fetch_ends_loop
  (env : Env) (w : World) (line : string) (rest : list key) :
  stdin w = Line line :: rest ->
  lower (strip line) ∉ quit_keywords ->
  strip line <> "" ->
  requests_get env (strip line) = inl KeyboardInterrupt ->
  exists w',
    loop_body env w = (Break, w') /\
    fs w' = fs w /\
    stdout w' = stdout w ++ [PROMPT; "Downloading image..."; nl +:+ "Exiting..."] /\
    forall fuel, session env (S fuel) w = (true, w').
Proof.
  intros Hin Hquit Hurl Hget.
  assert (Hbody : exists w',
    loop_body env w = (Break, w') /\ fs w' = fs w /\
    stdout w' = stdout w ++ [PROMPT; "Downloading image..."; nl +:+ "Exiting..."]).
  { unfold loop_body, try_body, bind, input. rewrite Hin.
    rewrite bool_decide_eq_false_2 by exact Hquit.
    unfold string_eqb. rewrite bool_decide_eq_false_2 by exact Hurl.
    unfold handle_url, bind, print. run_fetch. rewrite Hget.
    eexists. split; [reflexivity|]. cbn. split; [reflexivity|].
    rewrite <- !app_assoc. reflexivity. }
  destruct Hbody as (w' & Hbody & Hfs & Hout). exists w'.
  split; [exact Hbody|]. split; [exact Hfs|]. split; [exact Hout|].
  intros fuel. cbn [session]. rewrite Hbody. reflexivity.
Qed.

Lemma interrupt_during_fetch_ends_loop_witness :
  exists w',
    loop_body interrupted_fetch
              (Sample.world [Line "https://example.com/shot.png"; Line "later"] ∅)
      = (Break, w') /\
    fs w' = ∅.
Proof.
  destruct (interrupt_during_fetch_ends_loop interrupted_fetch
              (Sample.world [Line "https://example.com/shot.png"; Line "later"] ∅)
              "https://example.com/shot.png" [Line "later"] eq_refl)
    as (w' & Hrun & Hfs & _).
  - vm_compute. intros H. repeat (apply elem_of_cons in H as [H|H]; [discriminate H|]).
    apply elem_of_nil in H. exact H.
  - vm_compute. discriminate.
  - reflexivity.
  - exists w'. split; [exact Hrun | exact Hfs].
Defined.

(** X9. On a machine with a GPU whose model loads, an operator who types a
    quit keyword at the first prompt ends the program with status 0: the
    two working directories were created, and no request was made. *)
Theorem main_quits_at_first_prompt
  (env : Env) (fuel : nat) (w : World) (line kw : string) (rest : list key) :
  cuda_is_available env = true ->
  directories_free w ->
  from_pretrained env = None ->
  stdin w = Line line :: rest ->
  kw ∈ quit_keywords ->
  eq_ignore_case line kw = true ->
  exists w',
    main env (S fuel) w = (Exited 0, w') /\
    stdin w' = rest /\
    http_log w' = http_log w /\
    fs w' = <[OUTPUT_DIR := Directory]> (<[CACHE_DIR := Directory]> (fs w)).
Proof.
  intros Hcuda Hfree Hload Hin Hkw Hci.
  destruct (eq_ignore_case_lower line kw Hci) as [Hlow Hsp].
  destruct (quit_keyword_plain kw Hkw) as [Hkwlow Hkwsp].
  rewrite Hkwlow in Hlow. rewrite Hkwsp in Hsp.
  assert (Hq : lower (strip line) ∈ quit_keywords).
  { rewrite (strip_no_space line Hsp), Hlow. exact Hkw. }
  unfold main. rewrite (check_cuda_with_gpu env w Hcuda).
  rewrite (setup_directories_run w Hfree).
  unfold load_model, try_except, bind, print, check, ret.
  rewrite Hload. cbn [set_stdout stdout fs set_fs stdin].
  cbn [session]. erewrite loop_body_quit; [|cbn; exact Hin|exact Hq].
  eexists. split; [reflexivity|]. cbn. repeat split; reflexivity.
Qed.

Lemma main_quits_at_first_prompt_witness :
  exists w',
    main Sample.good 1 (Sample.world [Line "Quit"] ∅) = (Exited 0, w') /\
    http_log w' = [] /\
    fs w' = <[OUTPUT_DIR := Directory]> (<[CACHE_DIR := Directory]> ∅).
Proof.
  destruct (main_quits_at_first_prompt
              Sample.good 0 (Sample.world [Line "Quit"] ∅) "Quit" "quit" []
              eq_refl)
    as (w' & Hrun & _ & Hlog & Hfs).
  - split; intros c; vm_compute; discriminate.
  - reflexivity.
  - reflexivity.
  - apply elem_of_cons. right. apply elem_of_cons. left. reflexivity.
  - reflexivity.
  - exists w'. split; [exact Hrun|]. split; [exact Hlog | exact Hfs].
Defined.

(** ** The clean-up *)

Lemma isfile_lookup_eq (m m' : gmap path node) (q : path) :
  m' !! q = m !! q -> isfile m' q = isfile m q.
Proof. intros H. unfold isfile. rewrite H. reflexivity. Qed.

(** One removal of the sweep, under its own handler. *)
Lemma remove_quietly_cases (env : Env) (p : path) (w : World) :
  let step := try_except (os_remove env p) (fun _ => ret tt) w in
  (step = (Return tt, w) /\
   (isfile (fs w) p = false \/ exists msg, remove_fault env p = Some (Exception msg))) \/
  (step = (Return tt, set_fs (delete p (fs w)) w) /\
   isfile (fs w) p = true /\ remove_fault env p = None) \/
  (step = (Raise KeyboardInterrupt, w) /\
   isfile (fs w) p = true /\ remove_fault env p = Some KeyboardInterrupt).
Proof.
  unfold try_except, os_remove, isfile, ret.
  destruct (fs w !! p) as [[c|]|]; cbn.
  - destruct (remove_fault env p) as [[msg|]|]; cbn.
    + left. split; [reflexivity|]. right. exists msg. reflexivity.
    + right. right. repeat split; reflexivity.
    + right. left. repeat split; reflexivity.
  - left. split; [reflexivity|]. left. reflexivity.
  - left. split; [reflexivity|]. left. reflexivity.
Qed.

Lemma remove_each_frame (env : Env) (l : list string) (w : World) :
  match remove_each env l w with
  | (Raise (Exception _), _) => False
  | (_, w') =>
      stdout w' = stdout w /\
      forall q, swept_or_kept env l (fs w) (fs w') q
  end.
Proof.
  revert w. induction l as [|f l IH]; intros w.
  - cbn. split; [reflexivity|]. intros q. left. reflexivity.
  - cbn [remove_each]. unfold bind.
    destruct (remove_quietly_cases env (os_path_join CACHE_DIR f) w)
      as [[Hstep Hwhy] | [[Hstep [Hfile Hok]] | [Hstep _]]];
      cbv zeta in Hstep; rewrite Hstep.
    + specialize (IH w). destruct (remove_each env l w) as [[[]|[msg|]] w'];
        [|exact IH|]; destruct IH as [Hout IH]; (split; [exact Hout|]);
        intros q; destruct (IH q) as [Hq | (Hq & Hin & Hf & Hrm)];
        [left; exact Hq | right | left; exact Hq | right];
        (split; [exact Hq|]); (split; [|split; assumption]);
        rewrite fmap_cons; apply elem_of_cons; right; exact Hin.
    + specialize (IH (set_fs (delete (os_path_join CACHE_DIR f) (fs w)) w)).
      destruct (remove_each env l _) as [[[]|[msg|]] w'];
        [|exact IH|]; destruct IH as [Hout IH]; (split; [exact Hout|]);
        intros q; cbn [fs set_fs] in IH;
        (destruct (decide (q = os_path_join CACHE_DIR f)) as [->|Hne];
         [ right;
           split;
           [ destruct (IH (os_path_join CACHE_DIR f)) as [Hq | (Hq & _)];
             [rewrite Hq; apply lookup_delete_eq | exact Hq]
           | split; [rewrite fmap_cons; apply elem_of_cons; left; reflexivity
                    | split; assumption] ]
         | destruct (IH q) as [Hq | (Hq & Hin & Hf & Hrm)];
           [ left; rewrite Hq; apply lookup_delete_ne; congruence
           | right; split; [exact Hq|];
             split; [rewrite fmap_cons; apply elem_of_cons; right; exact Hin|];
             split; [apply isfile_delete in Hf as [Hf _]; exact Hf | exact Hrm] ] ]).
    + split; [reflexivity|]. intros q. left. reflexivity.
Qed.

Lemma swept_or_kept_not_file (env : Env) (l : list string)
    (m m' : gmap path node) (q : path) :
  swept_or_kept env l m m' q -> isfile m q = false -> isfile m' q = false.
Proof.
  intros [Hq | (Hq & _)] Hf.
  - rewrite (isfile_lookup_eq m m' q Hq). exact Hf.
  - unfold isfile. rewrite Hq. reflexivity.
Qed.

Lemma remove_each_removes (env : Env) (l : list string) (w : World) :
  (forall f, f ∈ l ->
     remove_fault env (os_path_join CACHE_DIR f) <> Some KeyboardInterrupt) ->
  exists w',
    remove_each env l w = (Return tt, w') /\
    forall f, f ∈ l ->
      remove_fault env (os_path_join CACHE_DIR f) = None ->
      isfile (fs w') (os_path_join CACHE_DIR f) = false.
Proof.
  revert w. induction l as [|f l IH]; intros w Hint.
  - exists w. split; [reflexivity|]. intros f Hf. apply elem_of_nil in Hf. contradiction.
  - assert (Hint' : forall g, g ∈ l ->
      remove_fault env (os_path_join CACHE_DIR g) <> Some KeyboardInterrupt).
    { intros g Hg. apply Hint. apply elem_of_cons. right. exact Hg. }
    cbn [remove_each]. unfold bind.
    destruct (remove_quietly_cases env (os_path_join CACHE_DIR f) w)
      as [[Hstep Hwhy] | [[Hstep [Hfile Hok]] | [Hstep [_ Hki]]]];
      cbv zeta in Hstep; rewrite Hstep.
    + destruct (IH w Hint') as (w' & Hrun & Hgone).
      pose proof (remove_each_frame env l w) as Hframe. rewrite Hrun in Hframe.
      destruct Hframe as [_ Hframe].
      exists w'. split; [exact Hrun|]. intros g Hg Hrm.
      apply elem_of_cons in Hg as [->|Hg]; [|exact (Hgone g Hg Hrm)].
      destruct Hwhy as [Hnot | [msg Hmsg]]; [|congruence].
      exact (swept_or_kept_not_file env l _ _ _ (Hframe _) Hnot).
    + destruct (IH (set_fs (delete (os_path_join CACHE_DIR f) (fs w)) w) Hint')
        as (w' & Hrun & Hgone).
      pose proof (remove_each_frame env l
                    (set_fs (delete (os_path_join CACHE_DIR f) (fs w)) w)) as Hframe.
      rewrite Hrun in Hframe. destruct Hframe as [_ Hframe].
      exists w'. split; [exact Hrun|]. intros g Hg Hrm.
      apply elem_of_cons in Hg as [->|Hg]; [|exact (Hgone g Hg Hrm)].
      apply (swept_or_kept_not_file env l _ _ _ (Hframe _)).
      cbn [fs set_fs]. unfold isfile. rewrite lookup_delete_eq. reflexivity.
    + exfalso. apply (Hint f); [apply elem_of_cons; left; reflexivity | exact Hki].
Qed.

(** X10. The sweep goes on after a removal that faults: of the listed
    names, every regular file whose removal does not fault is gone
    afterwards, a file whose removal faults stays as it was, and no path
    outside the list is touched; the sweep itself does not raise. *)
Theorem sweep_skips_what_it_cannot_remove
  (env : Env) (l : list string) (w : World) :
  (forall f, f ∈ l ->
     remove_fault env (os_path_join CACHE_DIR f) <> Some KeyboardInterrupt) ->
  exists w',
    remove_each env l w = (Return tt, w') /\
    (forall f, f ∈ l ->
       remove_fault env (os_path_join CACHE_DIR f) = None ->
       isfile (fs w') (os_path_join CACHE_DIR f) = false) /\
    (forall q, remove_fault env q <> None -> fs w' !! q = fs w !! q) /\
    (forall q, q ∉ (os_path_join CACHE_DIR <$> l) -> fs w' !! q = fs w !! q).
Proof.
  intros Hint. destruct (remove_each_removes env l w Hint) as (w' & Hrun & Hgone).
  pose proof (remove_each_frame env l w) as Hframe. rewrite Hrun in Hframe.
  destruct Hframe as [_ Hframe].
  exists w'. split; [exact Hrun|]. split; [exact Hgone|]. split.
  - intros q Hq. destruct (Hframe q) as [H | (_ & _ & _ & H)]; [exact H | contradiction].
  - intros q Hq. destruct (Hframe q) as [H | (_ & H & _)]; [exact H | contradiction].
Qed.

Lemma sweep_skips_what_it_cannot_remove_witness :
  exists w',
    remove_each stuck_file ["stuck.tmp"; "old.jpg"] (Sample.world [] stray_disk)
      = (Return tt, w') /\
    isfile (fs w') [".";"cache";"old.jpg"] = false /\
    fs w' !! [".";"cache";"stuck.tmp"] = Some (File (TextFile "a")).
Proof.
  destruct (sweep_skips_what_it_cannot_remove
              stuck_file ["stuck.tmp"; "old.jpg"] (Sample.world [] stray_disk))
    as (w' & Hrun & Hgone & Hstay & _).
  - intros f Hf.
    apply elem_of_cons in Hf as [->|Hf]; [vm_compute; discriminate|].
    apply elem_of_cons in Hf as [->|Hf]; [vm_compute; discriminate|].
    apply elem_of_nil in Hf. contradiction.
  - exists w'. split; [exact Hrun|]. split.
    + apply (Hgone "old.jpg"); [|reflexivity].
      apply elem_of_cons. right. apply elem_of_cons. left. reflexivity.
    + rewrite (Hstay [".";"cache";"stuck.tmp"]); [reflexivity|].
      vm_compute. discriminate.
Defined.

(** ** What an iteration leaves alone *)

Section Frame.

Variable env : Env.
Variable R : World -> World -> Prop.
Variable ok : path -> Prop.

Hypothesis R_refl : forall w, R w w.
Hypothesis R_trans : forall a b c, R a b -> R b c -> R a c.
Hypothesis R_out : forall x w, R w (set_stdout x w).
Hypothesis R_in : forall x w, R w (set_stdin x w).
Hypothesis R_tick : forall x w, R w (set_tick x w).
Hypothesis R_insert : forall p v w, ok p -> R w (set_fs (<[p := v]> (fs w)) w).
Hypothesis R_delete : forall p w, ok p -> R w (set_fs (delete p (fs w)) w).
Hypothesis ok_cache : forall f, ok (os_path_join CACHE_DIR f).
Hypothesis ok_output : forall f, ok (os_path_join OUTPUT_DIR f).

Lemma preserves_ret {A} (a : A) : preserves R (ret a).
Proof. intros w. apply R_refl. Qed.

Lemma preserves_raise {A} (e : exn) : preserves R (@raise A e).
Proof. intros w. apply R_refl. Qed.

Lemma preserves_bind {A B} (m : M A) (k : A -> M B) :
  preserves R m -> (forall a, preserves R (k a)) -> preserves R (bind m k).
Proof.
  intros Hm Hk w. unfold bind. specialize (Hm w).
  destruct (m w) as [[a|e] w1]; cbn [snd] in *.
  - eapply R_trans; [exact Hm | apply Hk].
  - exact Hm.
Qed.

Lemma preserves_try_except {A} (m : M A) (h : string -> M A) :
  preserves R m -> (forall msg, preserves R (h msg)) ->
  preserves R (try_except m h).
Proof.
  intros Hm Hh w. unfold try_except. specialize (Hm w).
  destruct (m w) as [[a|[msg|]] w1]; cbn [snd] in *; try exact Hm.
  eapply R_trans; [exact Hm | apply Hh].
Qed.

Lemma preserves_call {A} (r : exn + A) : preserves R (call r).
Proof. destruct r; [apply preserves_raise | apply preserves_ret]. Qed.

Lemma preserves_check (r : option exn) : preserves R (check r).
Proof. destruct r; [apply preserves_raise | apply preserves_ret]. Qed.

Lemma preserves_get_fs : preserves R get_fs.
Proof. intros w. apply R_refl. Qed.

Lemma preserves_print (s : string) : preserves R (print s).
Proof. intros w. apply R_out. Qed.

Lemma preserves_input (s : string) : preserves R (input s).
Proof.
  intros w. unfold input. destruct (stdin w) as [|[line|] rest]; cbn [snd].
  - apply R_out.
  - eapply R_trans; [apply R_out | apply R_in].
  - eapply R_trans; [apply R_out | apply R_in].
Qed.

Lemma preserves_datetime_now : preserves R (datetime_now env).
Proof. intros w. apply R_tick. Qed.

Lemma preserves_time_now : preserves R (time_now env).
Proof. intros w. apply R_tick. Qed.

Lemma preserves_exists (p : path) : preserves R (os_path_exists p).
Proof. intros w. apply R_refl. Qed.

Lemma preserves_os_remove (p : path) : ok p -> preserves R (os_remove env p).
Proof.
  intros Hp w. unfold os_remove.
  destruct (fs w !! p) as [[c|]|]; try apply R_refl.
  destruct (remove_fault env p); [apply R_refl | apply R_delete, Hp].
Qed.

Lemma preserves_write_file (p : path) (c : content) :
  ok p -> preserves R (write_file env p c).
Proof.
  intros Hp w. unfold write_file.
  destruct (write_fault env p); [apply R_refl | apply R_insert, Hp].
Qed.

Lemma preserves_f_write (p : path) (s : string) : ok p -> preserves R (f_write p s).
Proof.
  intros Hp w. unfold f_write.
  destruct (fs w !! p) as [[[i|t]|]|]; try apply R_refl.
  apply R_insert, Hp.
Qed.

Lemma preserves_remove_each (l : list string) : preserves R (remove_each env l).
Proof.
  induction l as [|f l IH]; [apply preserves_ret|].
  cbn [remove_each]. apply preserves_bind; [|intros _; exact IH].
  apply preserves_try_except; [apply preserves_os_remove, ok_cache|].
  intros _. apply preserves_ret.
Qed.

Lemma preserves_cleanup (p : path) : ok p -> preserves R (cleanup env p).
Proof.
  intros Hp. unfold cleanup.
  apply preserves_try_except; [|intros msg; apply preserves_print].
  apply preserves_bind.
  { destruct (negb (path_is_empty env p));
      [apply preserves_exists | apply preserves_ret]. }
  intros found. apply preserves_bind.
  { destruct found; [apply preserves_os_remove, Hp | apply preserves_ret]. }
  intros _. apply preserves_bind; [apply preserves_get_fs|].
  intros files. destruct (filter _ _) as [|f l].
  - apply preserves_print.
  - apply preserves_bind; [apply preserves_remove_each|].
    intros _. apply preserves_print.
Qed.

Lemma preserves_process_image (p : path) : preserves R (process_image env p).
Proof.
  unfold process_image.
  apply preserves_bind; [apply preserves_call|]. intros text.
  apply preserves_bind; [apply preserves_get_fs|]. intros files.
  apply preserves_bind; [apply preserves_call|]. intros vision.
  apply preserves_bind; [apply preserves_call|]. intros inputs.
  apply preserves_bind; [apply preserves_check|]. intros _.
  apply preserves_bind; [apply preserves_call|]. intros generated_ids.
  destruct (batch_decode env true _); [apply preserves_raise | apply preserves_ret].
Qed.

Lemma preserves_save_output (content url : string) :
  preserves R (save_output env content url).
Proof.
  unfold save_output.
  apply preserves_bind; [apply preserves_datetime_now|]. intros now.
  apply preserves_bind; [apply preserves_write_file, ok_output|]. intros _.
  apply preserves_bind; [apply preserves_f_write, ok_output|]. intros _.
  apply preserves_bind; [apply preserves_datetime_now|]. intros now'.
  apply preserves_bind; [apply preserves_f_write, ok_output|]. intros _.
  apply preserves_bind; [apply preserves_f_write, ok_output|]. intros _.
  apply preserves_ret.
Qed.

(** The path [download_image] returns is an entry of the scratch
    directory. *)
Lemma download_image_path (url : string) (w w1 : World)
    (p : path) (i : option image) :
  download_image env url w = (Return (Some p, i), w1) ->
  exists f, p = os_path_join CACHE_DIR f.
Proof.
  run_fetch.
  destruct (requests_get env url) as [[msg|]|r]; cbn; try discriminate.
  destruct (raise_for_status env r) as [[msg|]|]; cbn; try discriminate.
  destruct (Image_open env (body r)) as [[msg|]|img]; cbn; try discriminate.
  destruct (write_fault env _) as [[msg|]|]; cbn; try discriminate.
  intros [= <- _ _]. eexists. reflexivity.
Qed.

(** [handle_url] is: steps that preserve [R], then the download, then
    steps that preserve [R]. *)
Lemma handle_url_around_download (url : string) (w : World) :
  exists w0,
    R w w0 /\
    R (download_image env url w0).2 (handle_url env url w).2.
Proof.
  exists (set_stdout (stdout w ++ ["Downloading image..."]) w).
  split; [apply R_out|].
  unfold handle_url. unfold bind at 1. unfold print at 1. unfold bind at 1.
  destruct (download_image env url _) as [[fetched|e] w1] eqn:Hd;
    cbn [snd]; [|apply R_refl].
  destruct fetched as [[p|] i]; cbn [fst]; [|apply R_refl].
  destruct (download_image_path url _ w1 p i Hd) as [f ->]. clear Hd.
  destruct (path_is_empty env _); [apply R_refl|].
  revert w1.
  match goal with
  | |- forall w1, R w1 (?m w1).2 => change (preserves R m)
  end.
  apply preserves_bind; [apply preserves_print|]. intros _.
  apply preserves_bind; [apply preserves_time_now|]. intros t0.
  apply preserves_bind; [apply preserves_process_image|]. intros text.
  apply preserves_bind; [apply preserves_time_now|]. intros t1.
  apply preserves_bind; [apply preserves_save_output|]. intros out.
  do 4 (apply preserves_bind; [apply preserves_print|]; intros _).
  apply preserves_bind; [apply preserves_cleanup, ok_cache|]. intros _.
  apply preserves_ret.
Qed.

End Frame.

Lemma working_entry_not_outside (p q : path) :
  working_entry p ->
  entry_of CACHE_DIR q = None -> entry_of OUTPUT_DIR q = None -> p <> q.
Proof.
  intros [[f Hf] | [f Hf]] Hc Ho ->; congruence.
Qed.

Lemma download_image_same_outside (env : Env) (url : string) (w : World) :
  same_outside_working_dirs w (download_image env url w).2.
Proof.
  intros q Hc Ho. run_fetch.
  destruct (requests_get env url) as [[msg|]|r]; cbn; try reflexivity.
  destruct (raise_for_status env r) as [[msg|]|]; cbn; try reflexivity.
  destruct (Image_open env (body r)) as [[msg|]|img]; cbn; try reflexivity.
  destruct (write_fault env _) as [[msg|]|]; cbn; try reflexivity.
  apply lookup_insert_ne. intros <-. cbn in Hc.
  repeat (destruct (decide _) in Hc; [|congruence]). discriminate Hc.
Qed.

Lemma handle_url_same_outside (env : Env) (url : string) (w : World) :
  same_outside_working_dirs w (handle_url env url w).2.
Proof.
  destruct (handle_url_around_download env same_outside_working_dirs working_entry)
    with (url := url) (w := w) as (w0 & Hbefore & Hafter).
  - intros w1 q _ _. reflexivity.
  - intros a b c Hab Hbc q Hc Ho. rewrite (Hbc q Hc Ho). exact (Hab q Hc Ho).
  - intros x w1 q _ _. reflexivity.
  - intros x w1 q _ _. reflexivity.
  - intros p v w1 Hp q Hc Ho. cbn [fs set_fs].
    apply lookup_insert_ne. exact (working_entry_not_outside p q Hp Hc Ho).
  - intros p w1 Hp q Hc Ho. cbn [fs set_fs].
    apply lookup_delete_ne. exact (working_entry_not_outside p q Hp Hc Ho).
  - intros f. left. rewrite entry_of_join. eauto.
  - intros f. right. rewrite entry_of_join. eauto.
  - intros q Hc Ho. rewrite (Hafter q Hc Ho).
    rewrite (download_image_same_outside env url w0 q Hc Ho).
    exact (Hbefore q Hc Ho).
Qed.

(** X11. An iteration touches the file system only at entries of the
    scratch directory and of the output directory: whatever the operator
    types and whatever faults, every other path is afterwards what it
    was. *)
Theorem iteration_touches_only_working_directories
  (env : Env) (w : World) (q : path) :
  entry_of CACHE_DIR q = None ->
  entry_of OUTPUT_DIR q = None ->
  fs (loop_body env w).2 !! q = fs w !! q.
Proof.
  intros Hc Ho.
  assert (Htry : fs (try_body env w).2 !! q = fs w !! q).
  { unfold try_body, bind, input.
    destruct (stdin w) as [|[line|] rest]; cbn [snd fs set_stdout set_stdin];
      try reflexivity.
    destruct (bool_decide _); [reflexivity|].
    destruct (string_eqb _ _); [reflexivity|].
    rewrite (handle_url_same_outside env (strip line) _ q Hc Ho). reflexivity. }
  unfold loop_body. destruct (try_body env w) as [[c|[msg|]] w1];
    cbn [snd fs set_stdout] in *; exact Htry.
Qed.

Lemma iteration_touches_only_working_directories_witness :
  entry_of CACHE_DIR ["."; "notes.txt"] = None /\
  entry_of OUTPUT_DIR ["."; "notes.txt"] = None /\
  fs (loop_body Sample.good
        (Sample.world [Line "https://example.com/shot.png"] home_disk)).2
    !! ["."; "notes.txt"]
    = Some (File (TextFile "mine")).
Proof.
  split; [reflexivity|]. split; [reflexivity|].
  rewrite (iteration_touches_only_working_directories
             Sample.good
             (Sample.world [Line "https://example.com/shot.png"] home_disk)
             ["."; "notes.txt"]); reflexivity.
Defined.

Lemma download_image_http_log (env : Env) (url : string) (w : World) :
  http_log (download_image env url w).2 = http_log w ++ [url].
Proof.
  run_fetch.
  destruct (requests_get env url) as [[msg|]|r]; cbn; try reflexivity.
  destruct (raise_for_status env r) as [[msg|]|]; cbn; try reflexivity.
  destruct (Image_open env (body r)) as [[msg|]|img]; cbn; try reflexivity.
  destruct (write_fault env _) as [[msg|]|]; cbn; reflexivity.
Qed.

Lemma handle_url_http_log (env : Env) (url : string) (w : World) :
  http_log (handle_url env url w).2 = http_log w ++ [url].
Proof.
  destruct (handle_url_around_download env same_requests (fun _ => True))
    with (url := url) (w := w) as (w0 & Hbefore & Hafter);
    try (intros; exact I); try (intros; reflexivity).
  - intros a b c Hab Hbc. unfold same_requests in *. congruence.
  - unfold same_requests in *.
    rewrite Hafter, download_image_http_log, Hbefore. reflexivity.
Qed.

(** X12. For a line that is neither blank nor a quit keyword the
    iteration makes exactly one request, for the stripped line, whatever
    the later stages do: there is no retry and no second fetch. *)
Theorem one_request_per_url
  (env : Env) (w : World) (line : string) (rest : list key) :
  stdin w = Line line :: rest ->
  lower (strip line) ∉ quit_keywords ->
  strip line <> "" ->
  http_log (loop_body env w).2 = http_log w ++ [strip line].
Proof.
  intros Hin Hquit Hurl.
  assert (Htry : http_log (try_body env w).2 = http_log w ++ [strip line]).
  { unfold try_body, bind, input. rewrite Hin.
    rewrite bool_decide_eq_false_2 by exact Hquit.
    unfold string_eqb. rewrite bool_decide_eq_false_2 by exact Hurl.
    rewrite handle_url_http_log. reflexivity. }
  unfold loop_body. destruct (try_body env w) as [[c|[msg|]] w1];
    cbn [snd http_log set_stdout] in *; exact Htry.
Qed.

Lemma one_request_per_url_witness :
  http_log (loop_body Sample.faulty_model
              (Sample.world [Line "  https://example.com/shot.png "] ∅)).2
    = ["https://example.com/shot.png"].
Proof.
  rewrite (one_request_per_url Sample.faulty_model
             (Sample.world [Line "  https://example.com/shot.png "] ∅)
             "  https://example.com/shot.png " []).
  - reflexivity.
  - reflexivity.
  - vm_compute. intros H. repeat (apply elem_of_cons in H as [H|H]; [discriminate H|]).
    apply elem_of_nil in H. exact H.
  - vm_compute. discriminate.
Defined.

(** ** More on the clean-up *)

Lemma cleanup_frame (env : Env) (p : path) (w : World) :
  same_outside_cache p w (cleanup env p w).2.
Proof.
  apply (preserves_cleanup env (same_outside_cache p)
           (fun x => x = p \/ is_Some (entry_of CACHE_DIR x))).
  - intros w1 q _ _. reflexivity.
  - intros a b c Hab Hbc q Hq Hc. rewrite (Hbc q Hq Hc). exact (Hab q Hq Hc).
  - intros x w1 q _ _. reflexivity.
  - intros x w1 Hx q Hq Hc. cbn [fs set_fs]. apply lookup_delete_ne.
    destruct Hx as [->|[f Hf]]; [congruence | intros ->; congruence].
  - intros f. right. rewrite entry_of_join. eauto.
  - left. reflexivity.
Qed.

(** X13. The clean-up is never fatal and never reaches beyond the scratch
    directory: it does not raise an [Exception] (a failure becomes a
    warning), and every path other than the image's that is not an entry
    of the scratch directory is afterwards what it was. *)
Theorem cleanup_is_never_fatal (env : Env) (p : path) (w : World) :
  (forall msg, (cleanup env p w).1 <> Raise (Exception msg)) /\
  (forall q, q <> p -> entry_of CACHE_DIR q = None ->
             fs (cleanup env p w).2 !! q = fs w !! q).
Proof.
  split; [|exact (cleanup_frame env p w)].
  intros msg. unfold cleanup, try_except.
  match goal with
  | |- context [match ?body w with _ => _ end] =>
      destruct (body w) as [[a|[m|]] w1]
  end; cbn; discriminate.
Qed.

Lemma cleanup_is_never_fatal_witness :
  (cleanup locked_disk [".";"cache";"old.jpg"] (Sample.world [] home_disk)).1
    = Return tt /\
  fs (cleanup Sample.good [".";"cache";"old.jpg"] (Sample.world [] home_disk)).2
    !! ["."; "notes.txt"] = Some (File (TextFile "mine")).
Proof.
  split; [vm_compute; reflexivity|].
  destruct (cleanup_is_never_fatal Sample.good [".";"cache";"old.jpg"]
              (Sample.world [] home_disk)) as [_ Hframe].
  rewrite (Hframe ["."; "notes.txt"]); [reflexivity | discriminate | reflexivity].
Defined.

(** X14. When the removal of the downloaded image faults, the clean-up
    stops there: it prints the warning and leaves the file system as it
    was, the stray files of the scratch directory included (the sweep is
    not reached). *)
Theorem image_removal_fault_skips_sweep
  (env : Env) (p : path) (w : World) (c : content) (msg : string) :
  path_is_empty env p = false ->
  fs w !! p = Some (File c) ->
  remove_fault env p = Some (Exception msg) ->
  cleanup env p w
    = (Return tt,
       set_stdout
         (stdout w ++ ["Warning: Could not delete cached image: " +:+ msg]) w).
Proof.
  intros Hne Hfile Hfault.
  unfold cleanup, try_except. unfold bind at 1. rewrite Hne. cbn [negb].
  unfold os_path_exists.
  rewrite bool_decide_eq_true_2 by (rewrite Hfile; eauto).
  unfold bind at 1. unfold os_remove. rewrite Hfile, Hfault. reflexivity.
Qed.

Lemma image_removal_fault_skips_sweep_witness :
  exists w',
    cleanup locked_disk [".";"cache";"old.jpg"] (Sample.world [] home_disk)
      = (Return tt, w') /\
    fs w' = home_disk /\
    stdout w' = ["Warning: Could not delete cached image: Access is denied"].
Proof.
  eexists. split.
  - apply (image_removal_fault_skips_sweep locked_disk [".";"cache";"old.jpg"]
             (Sample.world [] home_disk) (ImageFile Sample.png) "Access is denied");
      reflexivity.
  - split; reflexivity.
Defined.

(** ** A successful iteration *)

Lemma output_entry_outside_cache (f : string) :
  entry_of CACHE_DIR (os_path_join OUTPUT_DIR f) = None.
Proof.
  cbn. destruct (decide ("." = ".")); [|reflexivity].
  destruct (decide ("cache" = "output")); [discriminate | reflexivity].
Qed.

(** X15. When the fetch, the inference and the writing succeed, the
    output document is on disk at the end of the iteration whatever the
    clean-up does: it is named after the clock reading taken by
    [save_output], cites the stripped input as its source, and holds the
    text of the model's continuation. *)
Theorem successful_iteration_saves_document
  (env : Env) (w : World) (line : string) (rest : list key) (img : image)
  (inputs : model_inputs) (prompt row : list token)
  (prompts rows : list (list token)) :
  stdin w = Line line :: rest ->
  lower (strip line) ∉ quit_keywords ->
  strip line <> "" ->
  fetch_decodes env (strip line) img ->
  (forall p, write_fault env p = None) ->
  prepared env (cache_path env w)
    (<[cache_path env w := File (ImageFile (normalized env img))]> (fs w)) inputs ->
  input_ids inputs = prompt :: prompts ->
  generate env inputs 2048 = inr (row :: rows) ->
  exists c w',
    loop_body env w = (c, w') /\
    fs w' !! os_path_join OUTPUT_DIR
               ("output_" +:+ strftime_stamp (clock env (3 + tick w)) +:+ ".md")
      = Some (File (TextFile
          (document (strip line) (clock env (4 + tick w))
                    (visible_text env (drop (length prompt) row))))).
Proof.
  intros Hin Hquit Hurl Hok Hwrite Hprep Hids Hgen.
  unfold loop_body, try_body, bind, input. rewrite Hin.
  rewrite bool_decide_eq_false_2 by exact Hquit.
  unfold string_eqb. rewrite bool_decide_eq_false_2 by exact Hurl.
  unfold handle_url. unfold bind at 1. unfold print at 1. unfold bind at 1.
  set (w0 := set_stdout _ (set_stdin rest _)).
  rewrite (download_image_success env (strip line) w0 img Hok (Hwrite _)).
  cbn [fst]. unfold cache_path at 1. rewrite path_str_cache_nonempty.
  unfold bind at 1. unfold print at 1. unfold bind at 1. unfold time_now at 1.
  unfold bind at 1.
  rewrite process_image_run
    with (files := <[cache_path env w := File (ImageFile (normalized env img))]> (fs w))
         (inputs := inputs) (prompt := prompt) (row := row)
         (prompts := prompts) (rows := rows);
    [ | reflexivity | exact Hprep | exact Hids | exact Hgen ].
  unfold bind at 1. unfold time_now at 1. unfold bind at 1.
  rewrite save_output_run by apply Hwrite.
  do 4 (unfold bind at 1; unfold print at 1).
  unfold bind at 1.
  match goal with
  | |- context [cleanup env ?p ?wc] =>
      pose proof (cleanup_frame env p wc
                    (os_path_join OUTPUT_DIR
                       ("output_" +:+ strftime_stamp (clock env (3 + tick w)) +:+ ".md")))
        as Hkept;
      destruct (cleanup env p wc) as [[[]|[msg|]] w1]
  end;
    cbn [snd fs set_fs set_stdout set_tick set_http_log] in Hkept;
    (rewrite lookup_insert_eq in Hkept
       || (unfold output_path in Hkept; cbn [tick set_tick set_stdout set_stdin
             set_fs set_http_log] in Hkept; rewrite lookup_insert_eq in Hkept));
    do 2 eexists; (split; [reflexivity|]); cbn [fs set_stdout];
    apply Hkept;
    solve [ unfold cache_path, os_path_join, OUTPUT_DIR, CACHE_DIR; cbn; congruence
          | apply output_entry_outside_cache ].
Qed.

Lemma sample_prepared (files : gmap path node) :
  prepared Sample.good [".";"cache";"image_20240102_030405.jpg"] files
           {| input_ids := [[1; 2; 3]]; pixel_values := [] |}.
Proof. exists "chat", ([Sample.png], []). repeat split; reflexivity. Qed.

Lemma sample_not_quit :
  lower (strip "https://example.com/shot.png") ∉ quit_keywords.
Proof.
  vm_compute. intros H.
  repeat (apply elem_of_cons in H as [H|H]; [discriminate H|]).
  apply elem_of_nil in H. exact H.
Qed.

Lemma successful_iteration_saves_document_witness :
  exists c w',
    loop_body Sample.good
              (Sample.world [Line "https://example.com/shot.png"] ∅) = (c, w') /\
    fs w' !! [".";"output";"output_20240102_030405.md"]
      = Some (File (TextFile
          (document "https://example.com/shot.png" Sample.noon "# Overview!"))).
Proof.
  apply (successful_iteration_saves_document
           Sample.good (Sample.world [Line "https://example.com/shot.png"] ∅)
           "https://example.com/shot.png" [] Sample.png
           {| input_ids := [[1; 2; 3]]; pixel_values := [] |}
           [1; 2; 3] [1; 2; 3; 7; 0; 8] [] []).
  - reflexivity.
  - exact sample_not_quit.
  - vm_compute. discriminate.
  - exists {| status_code := 200; body := "PNG" |}. repeat split; reflexivity.
  - intros p. reflexivity.
  - apply sample_prepared.
  - reflexivity.
  - reflexivity.
Defined.

Lemma loop_body_inference_fault_witness :
  exists w',
    loop_body Sample.faulty_model
              (Sample.world [Line "https://example.com/shot.png"] ∅)
      = (Continue, w') /\
    fs w' !! [".";"cache";"image_20240102_030405.jpg"]
      = Some (File (ImageFile (normalized Sample.faulty_model Sample.png))) /\
    last (stdout w') = Some "An unexpected error occurred: CUDA out of memory".
Proof.
  apply (loop_body_inference_fault
           Sample.faulty_model
           (Sample.world [Line "https://example.com/shot.png"] ∅)
           "https://example.com/shot.png" [] Sample.png
           {| input_ids := [[1; 2; 3]]; pixel_values := [] |}
           "CUDA out of memory").
  - reflexivity.
  - exact sample_not_quit.
  - vm_compute. discriminate.
  - exists {| status_code := 200; body := "PNG" |}. repeat split; reflexivity.
  - reflexivity.
  - exists "chat", ([Sample.png], []). repeat split; reflexivity.
  - reflexivity.
Defined.

(** ** File names *)

Section Stamps.

Local Open Scope Z_scope.

Local Arguments pad2 : simpl never.
Local Arguments pad4 : simpl never.
Local Arguments read_digits : simpl never.

Lemma read_stamp_strftime (t : datetime) (rest : string) :
  valid_datetime t ->
  read_stamp (strftime_stamp t +:+ rest)
    = Some (year t, month t, day t, hour t, minute t, second t, rest).
Proof.
  intros (Hy & Hmo & Hd & Hh & Hmi & Hs & _).
  unfold read_stamp, strftime_stamp. rewrite !append_assoc.
  rewrite read_pad4 by lia. cbn.
  do 2 (rewrite read_pad2 by lia; cbn).
  rewrite append_cons, append_nil. cbn.
  do 3 (rewrite read_pad2 by lia; cbn).
  reflexivity.
Qed.

End Stamps.

Lemma strftime_stamp_same_second (a b : datetime) :
  same_second a b -> strftime_stamp a = strftime_stamp b.
Proof.
  intros (Hy & Hmo & Hd & Hh & Hmi & Hs). unfold strftime_stamp.
  rewrite Hy, Hmo, Hd, Hh, Hmi, Hs. reflexivity.
Qed.

(** X16. Two calls of [save_output] write to the same file exactly when
    their clock readings fall in the same second: documents saved in
    different seconds never share a name, and the microseconds play no
    part in it. *)
Theorem output_name_identifies_the_second (env : Env) (w1 w2 : World) :
  valid_datetime (clock env (tick w1)) ->
  valid_datetime (clock env (tick w2)) ->
  output_path env w1 = output_path env w2 <->
  same_second (clock env (tick w1)) (clock env (tick w2)).
Proof.
  intros Hv1 Hv2. split.
  - unfold output_path, os_path_join. intros H.
    apply app_inv_head in H.
    apply (f_equal (fun l : list string => default "" (head l))) in H.
    cbn [head default] in H.
    apply (inj (String.app "output_")) in H.
    pose proof (read_stamp_strftime _ ".md" Hv1) as H1.
    pose proof (read_stamp_strftime _ ".md" Hv2) as H2.
    rewrite H in H1. rewrite H1 in H2. injection H2 as Ey Emo Ed Eh Emi Es.
    unfold same_second. repeat split; assumption.
  - intros Hsame. unfold output_path.
    rewrite (strftime_stamp_same_second _ _ Hsame). reflexivity.
Qed.

Lemma output_name_identifies_the_second_witness :
  output_path ticking (Sample.world [] ∅)
    <> output_path ticking (set_tick 1 (Sample.world [] ∅)).
Proof.
  intros H.
  apply (output_name_identifies_the_second
           ticking (Sample.world [] ∅) (set_tick 1 (Sample.world [] ∅))) in H.
  - destruct H as (_ & _ & _ & _ & _ & Hs). discriminate Hs.
  - unfold valid_datetime. cbn. lia.
  - unfold valid_datetime. cbn. lia.
Defined.

(** ** The preview and the inference edge cases *)

Lemma char_length_append (a b : string) :
  char_length (a +:+ b) = char_length a + char_length b.
Proof.
  induction a as [|c a IH]; [reflexivity|].
  rewrite append_cons. cbn [char_length]. rewrite IH.
  destruct (is_continuation c); reflexivity.
Qed.

Lemma char_length_str_take (n : nat) (s : string) :
  char_length (str_take n s) = Nat.min n (char_length s).
Proof.
  revert n. induction s as [|c r IH]; intros n.
  - cbn. lia.
  - cbn [str_take char_length].
    destruct (is_continuation c) eqn:Hc.
    + cbn [char_length]. rewrite Hc. apply IH.
    + destruct n as [|n]; [reflexivity|].
      cbn [char_length]. rewrite Hc, IH. reflexivity.
Qed.

(** X17. The preview printed after a successful iteration is the
    generated text itself when that has at most 200 characters, and
    otherwise its first 200 characters followed by three dots: it is never
    longer than 203 characters.  Characters are counted, not bytes. *)
Theorem preview_is_bounded (s : string) :
  char_length (preview s) <= 203 /\
  (char_length s <= 200 -> preview s = s) /\
  (200 < char_length s ->
   preview s = str_take 200 s +:+ "..." /\ char_length (preview s) = 203).
Proof.
  unfold preview.
  destruct (Nat.ltb_spec 200 (char_length s)) as [Hlong | Hshort].
  - assert (Hlen : char_length (str_take 200 s +:+ "...") = 203).
    { rewrite char_length_append, char_length_str_take.
      change (char_length "...") with 3. lia. }
    split; [lia|]. split; [lia|]. intros _. split; [reflexivity | exact Hlen].
  - split; [lia|]. split; [reflexivity|]. lia.
Qed.

Lemma preview_is_bounded_witness :
  preview (String.concat "" (replicate 150 (String "195" (String "169" ""))))
    = String.concat "" (replicate 150 (String "195" (String "169" ""))) /\
  char_length (preview (String.concat "" (replicate 300 "a"))) = 203.
Proof.
  destruct (preview_is_bounded
              (String.concat "" (replicate 150 (String "195" (String "169" "")))))
    as (_ & Hshort & _).
  destruct (preview_is_bounded (String.concat "" (replicate 300 "a")))
    as (_ & _ & Hlong).
  split.
  - apply Hshort. vm_compute. lia.
  - apply Hlong. vm_compute. lia.
Defined.

(** X18. Edge cases of the inference step.  When the model returns no
    row, or the processor produced no prompt row, taking the first decoded
    text raises [IndexError], which the loop reports like any fault.  When
    the first row is no longer than the prompt, nothing is left after the
    prompt is cut off and the result is the empty text. *)
Theorem process_image_without_continuation
  (env : Env) (image_path : path) (w : World) (inputs : model_inputs)
  (rows : list (list token)) :
  prepared env image_path (fs w) inputs ->
  generate env inputs 2048 = inr rows ->
  (rows = [] \/ input_ids inputs = [] ->
   process_image env image_path w
     = (Raise (Exception "list index out of range"), w)) /\
  (forall prompt prompts row rows',
     input_ids inputs = prompt :: prompts ->
     rows = row :: rows' ->
     length row <= length prompt ->
     process_image env image_path w = (Return "", w)).
Proof.
  intros (text & vision & Htext & Hvision & Hproc & Hcuda) Hgen.
  assert (Hrun : process_image env image_path w =
    match batch_decode env true
            (zip_with (fun in_ids out_ids => slice_from (length in_ids) out_ids)
                      (input_ids inputs) rows) with
    | first :: _ => (Return first, w)
    | [] => (Raise (Exception "list index out of range"), w)
    end).
  { unfold process_image, bind, call, check, get_fs, ret, raise. cbn.
    rewrite Htext. cbn. rewrite Hvision. cbn. rewrite Hproc. cbn.
    rewrite Hcuda. cbn. rewrite Hgen. cbn.
    destruct (batch_decode env true _); reflexivity. }
  split.
  - intros [-> | Hnone]; rewrite Hrun.
    + destruct (input_ids inputs); reflexivity.
    + rewrite Hnone. reflexivity.
  - intros prompt prompts row rows' Hids -> Hshort. rewrite Hrun, Hids.
    cbn [zip_with batch_decode map]. unfold slice_from.
    rewrite drop_ge by exact Hshort. reflexivity.
Qed.

Lemma process_image_without_continuation_witness :
  process_image
    (variant Sample.good true None (subprocess_run Sample.good)
       (requests_get Sample.good) (remove_fault Sample.good)
       (fun _ _ => inr [[1; 2]]))
    [".";"cache";"image_20240102_030405.jpg"] (Sample.world [] ∅)
  = (Return "", Sample.world [] ∅).
Proof.
  destruct (process_image_without_continuation
              (variant Sample.good true None (subprocess_run Sample.good)
                 (requests_get Sample.good) (remove_fault Sample.good)
                 (fun _ _ => inr [[1; 2]]))
              [".";"cache";"image_20240102_030405.jpg"] (Sample.world [] ∅)
              {| input_ids := [[1; 2; 3]]; pixel_values := [] |} [[1; 2]])
    as [_ Hshort].
  - exists "chat", ([Sample.png], []). repeat split; reflexivity.
  - reflexivity.
  - apply (Hshort [1; 2; 3] [] [1; 2] []); [reflexivity | reflexivity | cbn; lia].
Defined.

(** ** A fault while writing, and what the sweep reports *)

Lemma save_output_fault (env : Env) (content url : string) (w : World) (e : exn) :
  write_fault env (output_path env w) = Some e ->
  save_output env content url w = (Raise e, set_tick (S (tick w)) w).
Proof.
  intros Hwrite. unfold output_path in Hwrite. cbn in Hwrite.
  unfold save_output, bind, datetime_now, open_w, write_file. cbn.
  rewrite Hwrite. reflexivity.
Qed.

(** X21. A fault while the output document is opened ends the iteration
    like an inference fault does: the error is reported and the loop
    continues, no document is written, and the downloaded image stays in
    the scratch directory because the clean-up is not reached. *)
Theorem write_fault_leaves_cached_image
  (env : Env) (w : World) (line msg : string) (rest : list key) (img : image)
  (inputs : model_inputs) (prompt row : list token)
  (prompts rows : list (list token)) :
  stdin w = Line line :: rest ->
  lower (strip line) ∉ quit_keywords ->
  strip line <> "" ->
  fetch_decodes env (strip line) img ->
  write_fault env (cache_path env w) = None ->
  prepared env (cache_path env w)
    (<[cache_path env w := File (ImageFile (normalized env img))]> (fs w)) inputs ->
  input_ids inputs = prompt :: prompts ->
  generate env inputs 2048 = inr (row :: rows) ->
  write_fault env
    (os_path_join OUTPUT_DIR
       ("output_" +:+ strftime_stamp (clock env (3 + tick w)) +:+ ".md"))
    = Some (Exception msg) ->
  exists w',
    loop_body env w = (Continue, w') /\
    fs w' = <[cache_path env w := File (ImageFile (normalized env img))]> (fs w) /\
    last (stdout w') = Some ("An unexpected error occurred: " +:+ msg).
Proof.
  intros Hin Hquit Hurl Hok Hwrite Hprep Hids Hgen Hout.
  unfold loop_body, try_body, bind, input. rewrite Hin.
  rewrite bool_decide_eq_false_2 by exact Hquit.
  unfold string_eqb. rewrite bool_decide_eq_false_2 by exact Hurl.
  unfold handle_url. unfold bind at 1. unfold print at 1. unfold bind at 1.
  set (w0 := set_stdout _ (set_stdin rest _)).
  rewrite (download_image_success env (strip line) w0 img Hok Hwrite).
  cbn [fst]. unfold cache_path at 1. rewrite path_str_cache_nonempty.
  unfold bind at 1. unfold print at 1. unfold bind at 1. unfold time_now at 1.
  unfold bind at 1.
  rewrite process_image_run
    with (files := <[cache_path env w := File (ImageFile (normalized env img))]> (fs w))
         (inputs := inputs) (prompt := prompt) (row := row)
         (prompts := prompts) (rows := rows);
    [ | reflexivity | exact Hprep | exact Hids | exact Hgen ].
  unfold bind at 1. unfold time_now at 1. unfold bind at 1.
  rewrite save_output_fault with (e := Exception msg) by exact Hout.
  eexists. split; [reflexivity|].
  cbn [fs set_fs set_stdout set_tick set_http_log stdout].
  split; [reflexivity | apply last_snoc].
Qed.

Lemma write_fault_leaves_cached_image_witness :
  exists w',
    loop_body readonly_output
              (Sample.world [Line "https://example.com/shot.png"] ∅)
      = (Continue, w') /\
    fs w' = {[ [".";"cache";"image_20240102_030405.jpg"] :=
                 File (ImageFile {| mode := "RGB"; pixels := [10; 20; 30]%Z |}) ]} /\
    last (stdout w') = Some "An unexpected error occurred: Permission denied".
Proof.
  apply (write_fault_leaves_cached_image
           readonly_output
           (Sample.world [Line "https://example.com/shot.png"] ∅)
           "https://example.com/shot.png" "Permission denied" [] Sample.png
           {| input_ids := [[1; 2; 3]]; pixel_values := [] |}
           [1; 2; 3] [1; 2; 3; 7; 0; 8] [] []).
  - reflexivity.
  - exact sample_not_quit.
  - vm_compute. discriminate.
  - exists {| status_code := 200; body := "PNG" |}. repeat split; reflexivity.
  - reflexivity.
  - exists "chat", ([Sample.png], []). repeat split; reflexivity.
  - reflexivity.
  - reflexivity.
  - reflexivity.
Defined.

(** X22. What the clean-up reports.  Once the image is removed, the
    message depends only on the listing of the scratch directory: with no
    other file listed it names the image, otherwise it counts the listed
    files plus one as removed, whether or not their removals faulted. *)
Theorem cleanup_report_counts_listed_files
  (env : Env) (p : path) (w : World) (c : content) :
  path_is_empty env p = false ->
  fs w !! p = Some (File c) ->
  remove_fault env p = None ->
  (forall q, remove_fault env q <> Some KeyboardInterrupt) ->
  exists w',
    cleanup env p w = (Return tt, w') /\
    stdout w' = stdout w ++
      [ match cache_files_of (delete p (fs w)) with
        | [] => "Cache cleared: " +:+ os_path_basename p
        | l => "Cache cleared: " +:+ str_of_nat (length l + 1)
               +:+ " file(s) removed"
        end ].
Proof.
  intros Hne Hfile Hrm Hint.
  unfold cleanup, try_except. unfold bind at 1. rewrite Hne. cbn [negb].
  unfold os_path_exists.
  rewrite bool_decide_eq_true_2 by (rewrite Hfile; eauto).
  unfold bind at 1. unfold os_remove.
  rewrite Hfile, Hrm. unfold bind at 1. unfold get_fs. cbn [fs set_fs].
  fold (cache_files_of (delete p (fs w))).
  destruct (cache_files_of (delete p (fs w))) as [|f l].
  - eexists. split; reflexivity.
  - destruct (remove_each_removes env (f :: l) (set_fs (delete p (fs w)) w))
      as (w1 & Hrun & _); [intros g _; apply Hint|].
    pose proof (remove_each_frame env (f :: l) (set_fs (delete p (fs w)) w))
      as Hframe.
    rewrite Hrun in Hframe. destruct Hframe as [Hout _].
    unfold bind. rewrite Hrun. unfold print.
    eexists. split; [reflexivity|]. cbn [stdout set_stdout].
    rewrite Hout. reflexivity.
Qed.

Lemma cleanup_report_counts_listed_files_witness :
  exists w',
    cleanup stuck_file [".";"cache";"old.jpg"] (Sample.world [] stray_disk)
      = (Return tt, w') /\
    stdout w' = ["Cache cleared: 2 file(s) removed"] /\
    fs w' !! [".";"cache";"stuck.tmp"] = Some (File (TextFile "a")).
Proof.
  destruct (cleanup_report_counts_listed_files
              stuck_file [".";"cache";"old.jpg"] (Sample.world [] stray_disk)
              (ImageFile Sample.png))
    as (w' & Hrun & Hout).
  - reflexivity.
  - reflexivity.
  - reflexivity.
  - intros q. unfold stuck_file, variant, remove_fault.
    destruct (decide _); discriminate.
  - exists w'. split; [exact Hrun|]. split.
    + rewrite Hout. vm_compute. reflexivity.
    + assert (Hw : w' = (cleanup stuck_file [".";"cache";"old.jpg"]
                           (Sample.world [] stray_disk)).2)
        by (rewrite Hrun; reflexivity).
      rewrite Hw. vm_compute. reflexivity.
Defined.

(** ** The fetch and the HTTP status *)





(** ** The output document on disk *)








(** ** The clean-up empties the scratch directory *)

(** X19. When no removal faults and the image path is not a directory,
    the clean-up block leaves no regular file in the scratch directory:
    the image just downloaded and every stray file of earlier iterations
    are gone, whether or not the image was still there. *)
Theorem cleanup_empties_scratch_directory
  (env : Env) (image_path : path) (w : World) :
  (forall q, remove_fault env q = None) ->
  fs w !! image_path <> Some Directory ->
  exists w',
    cleanup env image_path w = (Return tt, w') /\
    forall f, isfile (fs w') (os_path_join CACHE_DIR f) = false.
Proof.
  intros Hrm Hdir.
  assert (Hsweep :
    (if negb (path_is_empty env image_path)
     then os_path_exists image_path else ret false) w = (Return false, w) ->
    exists w',
      cleanup env image_path w = (Return tt, w') /\
      forall f, isfile (fs w') (os_path_join CACHE_DIR f) = false).
  { intros Hskip. unfold cleanup, try_except. unfold bind at 1. rewrite Hskip.
    unfold bind at 1. unfold ret at 1. unfold bind at 1. unfold get_fs.
    pose proof (listdir_complete (fs w) CACHE_DIR) as Hall.
    destruct (filter _ (listdir CACHE_DIR (fs w))) as [|f0 l] eqn:Hfiles.
    - eexists. split; [reflexivity|]. intros f. cbn [fs set_stdout].
      destruct (isfile (fs w) (os_path_join CACHE_DIR f)) eqn:Hf; [|reflexivity].
      apply Hall in Hf. apply elem_of_nil in Hf. contradiction.
    - destruct (remove_each_spec env (f0 :: l) w Hrm) as (w' & Hrun & Hspec).
      unfold bind. rewrite Hrun. eexists. split; [reflexivity|].
      intros f. cbn [fs set_stdout].
      destruct (isfile (fs w') (os_path_join CACHE_DIR f)) eqn:Hf; [|reflexivity].
      apply Hspec in Hf as [Hf Hl].
      exfalso. exact (Hl f (Hall f Hf) eq_refl). }
  destruct (path_is_empty env image_path) eqn:Hempty; cbn [negb] in Hsweep.
  - apply Hsweep. reflexivity.
  - destruct (fs w !! image_path) as [[c|]|] eqn:Hp.
    + exact (cleanup_clears_cache env image_path w c Hrm Hp Hempty).
    + contradiction.
    + apply Hsweep. unfold os_path_exists. rewrite Hp.
      rewrite bool_decide_eq_false_2 by (intros [x Hx]; discriminate Hx).
      reflexivity.
Qed.

Lemma cleanup_empties_scratch_directory_witness :
  exists w',
    cleanup Sample.good [".";"cache";"image_20240102_030405.jpg"]
            (Sample.world [] stray_disk) = (Return tt, w') /\
    isfile (fs w') [".";"cache";"old.jpg"] = false /\
    isfile (fs w') [".";"cache";"stuck.tmp"] = false.
Proof.
  destruct (cleanup_empties_scratch_directory
              Sample.good [".";"cache";"image_20240102_030405.jpg"]
              (Sample.world [] stray_disk))
    as (w' & Hrun & Hclean).
  - intros q. reflexivity.
  - vm_compute. discriminate.
  - exists w'. split; [exact Hrun|].
    split; [exact (Hclean "old.jpg") | exact (Hclean "stuck.tmp")].
Defined.

(** ** White space that is not ASCII *)

(** A no-break space around the input is stripped like any white space: a
    quit keyword followed by one ends the loop, and a line that is one is
    ignored without a request. *)
Lemma no_break_space_is_stripped :
  (loop_body Sample.good (Sample.world [Line ("q" +:+ NBSP)] ∅)).1 = Break /\
  loop_body Sample.no_gpu (Sample.world [Line NBSP] ∅)
    = (Continue,
       {| stdin := []; stdout := [PROMPT]; fs := ∅;
          http_log := []; spawned := []; tick := 0 |}) /\
  http_log (loop_body Sample.no_gpu
              (Sample.world [Line (NBSP +:+ "not-a-url" +:+ NBSP)] ∅)).2
    = ["not-a-url"].
Proof.
  split; [vm_compute; reflexivity|].
  split; vm_compute; reflexivity.
Qed.
